(** * Patient Management System (HTTP_method/project.py)

    A shallow embedding of the request handlers of [project.py] and of the
    helper functions they call, followed by the properties of the record
    lifecycle, of identifier generation and of the statistics.

    Modelling conventions.
    - A Python [str] is a [string]; a character is a code point below 256.
      [lower] and [int] follow CPython on that range.
    - A Python [int] is a [Z].
    - A Python [float] is a rational [Q] and every arithmetic operation is
      exact: the rounding of each operation to binary64, overflow and NaN
      are not represented.  [round] rounds the exact value half-to-even, as
      CPython does.
    - A Python [dict] with string keys is a [gmap string _].  A loop over a
      dictionary visits its entries in the order of [map_to_list] and not
      in the order of insertion; the results computed here are sums, least
      and greatest elements, counts and filters, which do not depend on the
      order (a sum or a bound of floats up to [==]).
    - [patients.json] is the only state.  A handler is a function from the
      state of the file to a result (a response or a raised exception) and
      the new state of the file.  A failing write of the file is not
      represented, and neither is the interpreter's limit on the length of
      decimal numerals. *)

From Stdlib Require Import ZArith QArith Qround Qabs Lqa String Ascii List Lia.
From Stdlib Require Import DecimalString DecimalN DecimalPos DecimalFacts.
From stdpp Require Import gmap strings list fin_maps.

Local Open Scope Z_scope.
Local Open Scope string_scope.

(** ** Exceptions *)

Inductive exn : Type :=
  | HTTPException (status_code : Z) (detail : string)
  | ZeroDivisionError
  | ValueError.

(** A computation that returns a value or raises. *)
Definition result (A : Type) : Type := (exn + A)%type.

Definition result_bind {A B} (r : result A) (k : A → result B) : result B :=
  match r with
  | inl e => inl e
  | inr a => k a
  end.

Fixpoint result_map {A B} (f : A → result B) (l : list A) : result (list B) :=
  match l with
  | [] => inr []
  | x :: l' =>
      result_bind (f x) (λ y,
      result_bind (result_map f l') (λ ys, inr (y :: ys)))
  end.

(** ** Built-in functions on strings and integers *)

Module Py.

Definition code (c : ascii) : N := N_of_ascii c.

Definition is_digit (c : ascii) : bool :=
  ((48 <=? code c) && (code c <=? 57))%N.

Definition digit_value (c : ascii) : N := (code c - 48)%N.

(** The characters [int] skips at both ends of its argument. *)
Definition is_space (c : ascii) : bool :=
  (((9 <=? code c) && (code c <=? 13))
   || (code c =? 32) || (code c =? 133) || (code c =? 160))%N.

(** [str.lower] on one character. *)
Definition lower_char (c : ascii) : ascii :=
  let n := code c in
  if (((65 <=? n) && (n <=? 90))
      || ((192 <=? n) && (n <=? 222) && negb (n =? 215)))%N
  then ascii_of_N (n + 32)
  else c.

Fixpoint lower (s : string) : string :=
  match s with
  | EmptyString => EmptyString
  | String c s' => String (lower_char c) (lower s')
  end.

(** [s[1:]] *)
Definition tail (s : string) : string :=
  match s with
  | EmptyString => EmptyString
  | String _ s' => s'
  end.

Fixpoint lstrip (s : string) : string :=
  match s with
  | String c s' => if is_space c then lstrip s' else s
  | EmptyString => EmptyString
  end.

Fixpoint rstrip (s : string) : string :=
  match s with
  | EmptyString => EmptyString
  | String c s' =>
      match rstrip s' with
      | EmptyString => if is_space c then EmptyString else String c EmptyString
      | t => String c t
      end
  end.

(** The digits of a decimal numeral, most significant first; a single
    underscore may separate two digits. *)
Fixpoint digits (acc : N) (after_digit : bool) (s : string) : option N :=
  match s with
  | EmptyString => if after_digit then Some acc else None
  | String c s' =>
      if is_digit c then digits (10 * acc + digit_value c)%N true s'
      else if (code c =? 95)%N && after_digit then digits acc false s'
      else None
  end.

(** [int(s)] for a string [s]. *)
Definition int (s : string) : result Z :=
  let body := rstrip (lstrip s) in
  let signed :=
    match body with
    | String c s' =>
        if (code c =? 45)%N then (true, s')
        else if (code c =? 43)%N then (false, s')
        else (false, body)
    | EmptyString => (false, body)
    end in
  match digits 0 false signed.2 with
  | Some n => inr (if signed.1 then - Z.of_N n else Z.of_N n)
  | None => inl ValueError
  end.

(** [str(z)] for an integer [z]. *)
Definition str (z : Z) : string := NilZero.string_of_int (Z.to_int z).

Fixpoint zeros (n : nat) : string :=
  match n with
  | O => EmptyString
  | S n' => String "0" (zeros n')
  end.

(** [s.zfill(width)] *)
Definition zfill (width : nat) (s : string) : string :=
  let fill := zeros (width - String.length s) in
  match s with
  | String c s' =>
      if ((code c =? 43) || (code c =? 45))%N
      then String c (fill ++ s')
      else fill ++ s
  | EmptyString => fill
  end.

(** [max(l)] for a list of integers. *)
Definition max (l : list Z) : result Z :=
  match l with
  | [] => inl ValueError
  | x :: l' => inr (fold_left Z.max l' x)
  end.

(** [min(l)] for a list of integers. *)
Definition min (l : list Z) : result Z :=
  match l with
  | [] => inl ValueError
  | x :: l' => inr (fold_left Z.min l' x)
  end.

(** [sum(l)] for a list of integers. *)
Definition sum (l : list Z) : Z := fold_left Z.add l 0.

End Py.

(** ** Floats and division *)

Module Float.

Local Open Scope Q_scope.

(** [x < y] and [x <= y] *)
Definition lt (x y : Q) : bool :=
  match x ?= y with Lt => true | _ => false end.

Definition le (x y : Q) : bool :=
  match x ?= y with Gt => false | _ => true end.

(** [x / y] for floats *)
Definition div (x y : Q) : result Q :=
  if Qeq_bool y 0 then inl ZeroDivisionError else inr (x / y).

(** [a / b] for integers (true division) *)
Definition truediv (a b : Z) : result Q :=
  if (b =? 0)%Z then inl ZeroDivisionError else inr (inject_Z a / inject_Z b).

(** [x ** n] for a literal positive exponent *)
Definition pow (x : Q) (n : positive) : Q := Qpower_positive x n.

(** The integer nearest to [x]; a tie goes to the even one. *)
Definition round_half_even (x : Q) : Z :=
  let f := Qfloor x in
  match Qcompare (x - inject_Z f) (1 # 2) with
  | Lt => f
  | Gt => (f + 1)%Z
  | Eq => if Z.even f then f else (f + 1)%Z
  end.

(** [round(x, ndigits)] for a float [x] *)
Definition round (x : Q) (ndigits : nat) : Q :=
  let scale := inject_Z (10 ^ Z.of_nat ndigits) in
  Qred (inject_Z (round_half_even (x * scale)) / scale).

(** [sum(l)] for a list of floats *)
Definition sum (l : list Q) : Q := fold_left Qplus l 0.

(** [min(l)] and [max(l)] for a list of floats: the running result is
    replaced by an item that compares strictly below (above) it. *)
Definition min (l : list Q) : result Q :=
  match l with
  | [] => inl ValueError
  | x :: l' => inr (fold_left (λ m y, if lt y m then y else m) l' x)
  end.

Definition max (l : list Q) : result Q :=
  match l with
  | [] => inl ValueError
  | x :: l' => inr (fold_left (λ m y, if lt m y then y else m) l' x)
  end.

End Float.

(** ** Data model *)

(** The request body of [POST /patients]. *)
Module Patient.
Record t : Type := mk {
  name : string;
  city : string;
  age : Z;
  gender : string;
  height : Q;
  weight : Q;
  bmi : option Q;
  verdict : option string
}.
End Patient.

(** The request body of [PUT /patients/{patient_id}]; [None] is a field the
    request does not set, [Some v] a field it sets to a value of the type
    declared for it.  (A request that sets a field to JSON [null] is not
    represented.) *)
Module PatientUpdate.
Record t : Type := mk {
  name : option string;
  city : option string;
  age : option Z;
  gender : option string;
  height : option Q;
  weight : option Q
}.
End PatientUpdate.

(** A record of the collection: the dictionary built by [add_patient]. *)
Record patient_data : Type := mk_patient_data {
  name : string;
  city : string;
  age : Z;
  gender : string;
  height : Q;
  weight : Q;
  bmi : Q;
  verdict : string
}.

(** The collection: patient identifier to record. *)
Abbreviation patients := (gmap string patient_data).

(** ** The file and the handler monad *)

Inductive patients_json : Type :=
  | FileNotFound
  | Undecodable
  | Document (data : patients).

Definition io (A : Type) : Type := patients_json → result A * patients_json.

#[export] Instance result_ret : MRet result := λ A a, inr a.
#[export] Instance result_mbind : MBind result := λ A B k r, result_bind r k.

#[export] Instance io_ret : MRet io := λ A a file, (inr a, file).
#[export] Instance io_bind : MBind io := λ A B k m file,
  match m file with
  | (inl e, file') => (inl e, file')
  | (inr a, file') => k a file'
  end.

Definition raise {A} (e : exn) : io A := λ file, (inl e, file).

Definition lift {A} (r : result A) : io A := λ file, (r, file).

Definition load_data : io patients := λ file,
  match file with
  | Document data => (inr data, file)
  | FileNotFound => (inr ∅, file)
  | Undecodable => (inl (HTTPException 500 "Error reading patient data"), file)
  end.

Definition save_data (data : patients) : io unit := λ _, (inr tt, Document data).

(** [d.keys()], [d.values()], [len(d)] *)
Definition keys {A} (d : gmap string A) : list string := (map_to_list d).*1.
Definition values {A} (d : gmap string A) : list A := (map_to_list d).*2.
Definition len {A} (d : gmap string A) : Z := Z.of_nat (size d).

(** ** Helper functions *)

Definition calculate_bmi (height weight : Q) : result Q :=
  q ← Float.div weight (Float.pow height 2);
  mret (Float.round q 2).

Definition get_bmi_verdict (bmi : Q) : string :=
  if Float.lt bmi (37 # 2) then "Underweight"
  else if Float.le (37 # 2) bmi && Float.lt bmi 25 then "Normal"
  else if Float.le 25 bmi && Float.lt bmi 30 then "Overweight"
  else "Obese".

Definition generate_patient_id (data : patients) : result string :=
  if decide (data = ∅) then mret "P001"
  else
    ids ← result_map (λ pid, Py.int (Py.tail pid)) (keys data);
    max_id ← Py.max ids;
    mret ("P" ++ Py.zfill 3 (Py.str (max_id + 1))).

(** ** Responses *)

Record age_statistics : Type := mk_age_statistics {
  average_age : Q;
  min_age : Z;
  max_age : Z
}.

Record bmi_statistics : Type := mk_bmi_statistics {
  average_bmi : Q;
  min_bmi : Q;
  max_bmi : Q
}.

Record statistics : Type := mk_statistics {
  total_patients : Z;
  age_stats : age_statistics;
  bmi_stats : bmi_statistics;
  gender_distribution : gmap string Z;
  city_distribution : gmap string Z;
  bmi_verdict_distribution : gmap string Z
}.

(** One constructor for each shape of JSON object a handler returns. *)
Inductive response : Type :=
  (** [{"message": "No patients found", "patients": {}}] *)
  | NoPatientsFound
  (** [{"total_patients": .., "patients": ..}] *)
  | AllPatients (total : Z) (data : patients)
  (** [{"patient_id": .., "patient_data": ..}] *)
  | PatientFound (patient_id : string) (record : patient_data)
  (** [{"message": "Patient added successfully", "patient_id": .., "patient_data": ..}] *)
  | PatientAdded (patient_id : string) (record : patient_data)
  (** [{"message": "Patient updated successfully", "patient_id": .., "patient_data": ..}] *)
  | PatientUpdated (patient_id : string) (record : patient_data)
  (** [{"message": "Patient deleted successfully", "deleted_patient_id": .., "deleted_patient_data": ..}] *)
  | PatientDeleted (patient_id : string) (record : patient_data)
  (** [{"message": "No patients found in <city>", "patients": {}}] *)
  | NoPatientsFoundIn (city : string)
  (** [{"city": .., "total_patients": .., "patients": ..}] *)
  | CityPatients (city : string) (total : Z) (data : patients)
  (** [{"message": "No patients found for statistics"}] *)
  | NoStatistics
  (** the statistics object *)
  | Statistics (stats : statistics).

Definition not_found : exn := HTTPException 404 "Patient not found".

(** ** Handlers *)

(** [GET /patients] *)
Definition get_all_patients : io response :=
  data ← load_data;
  if decide (data = ∅) then mret NoPatientsFound
  else mret (AllPatients (len data) data).

(** [GET /patients/{patient_id}] *)
Definition get_patient (patient_id : string) : io response :=
  data ← load_data;
  match data !! patient_id with
  | None => raise not_found
  | Some record => mret (PatientFound patient_id record)
  end.

(** [POST /patients] *)
Definition add_patient (patient : Patient.t) : io response :=
  data ← load_data;
  patient_id ← lift (generate_patient_id data);
  bmi ← lift (calculate_bmi (Patient.height patient) (Patient.weight patient));
  let verdict := get_bmi_verdict bmi in
  let record := {|
    name := Patient.name patient;
    city := Patient.city patient;
    age := Patient.age patient;
    gender := Patient.gender patient;
    height := Patient.height patient;
    weight := Patient.weight patient;
    bmi := bmi;
    verdict := verdict
  |} in
  let data := <[patient_id := record]> data in
  save_data data;;
  mret (PatientAdded patient_id record).

(** The loop [for field, value in update_data.items(): patient_data[field] = value] *)
Definition apply_update (patient_update : PatientUpdate.t) (record : patient_data)
    : patient_data := {|
  name := default (name record) (PatientUpdate.name patient_update);
  city := default (city record) (PatientUpdate.city patient_update);
  age := default (age record) (PatientUpdate.age patient_update);
  gender := default (gender record) (PatientUpdate.gender patient_update);
  height := default (height record) (PatientUpdate.height patient_update);
  weight := default (weight record) (PatientUpdate.weight patient_update);
  bmi := bmi record;
  verdict := verdict record
|}.

(** ["height" in update_data or "weight" in update_data] *)
Definition touches_bmi (patient_update : PatientUpdate.t) : bool :=
  bool_decide (is_Some (PatientUpdate.height patient_update))
  || bool_decide (is_Some (PatientUpdate.weight patient_update)).

Definition set_bmi (b : Q) (v : string) (record : patient_data) : patient_data := {|
  name := name record;
  city := city record;
  age := age record;
  gender := gender record;
  height := height record;
  weight := weight record;
  bmi := b;
  verdict := v
|}.

(** [PUT /patients/{patient_id}] *)
Definition update_patient (patient_id : string) (patient_update : PatientUpdate.t)
    : io response :=
  data ← load_data;
  match data !! patient_id with
  | None => raise not_found
  | Some record =>
      let record := apply_update patient_update record in
      record ←
        (if touches_bmi patient_update then
           b ← lift (calculate_bmi (height record) (weight record));
           mret (set_bmi b (get_bmi_verdict b) record)
         else mret record);
      let data := <[patient_id := record]> data in
      save_data data;;
      mret (PatientUpdated patient_id record)
  end.

(** [DELETE /patients/{patient_id}] *)
Definition delete_patient (patient_id : string) : io response :=
  data ← load_data;
  match data !! patient_id with
  | None => raise not_found
  | Some deleted_patient =>
      let data := delete patient_id data in
      save_data data;;
      mret (PatientDeleted patient_id deleted_patient)
  end.

(** [GET /patients/city/{city}] *)
Definition get_patients_by_city (city_name : string) : io response :=
  data ← load_data;
  let city_patients :=
    filter (λ kv, Py.lower (city kv.2) = Py.lower city_name) data in
  if decide (city_patients = ∅) then mret (NoPatientsFoundIn city_name)
  else mret (CityPatients city_name (len city_patients) city_patients).

(** The loop [for patient in data.values(): stats[k] = stats.get(k, 0) + 1]
    for the key [k] that [field] reads in the record. *)
Definition distribution (field : patient_data → string) (records : list patient_data)
    : gmap string Z :=
  fold_left (λ stats patient,
               <[field patient := default 0 (stats !! field patient) + 1]> stats)
            records ∅.

(** [GET /patients/stats] *)
Definition get_patient_statistics : io response :=
  data ← load_data;
  if decide (data = ∅) then mret NoStatistics
  else
    let total := len data in
    let ages := age <$> values data in
    let bmis := bmi <$> values data in
    let gender_stats := distribution gender (values data) in
    let city_stats := distribution city (values data) in
    let verdict_stats := distribution verdict (values data) in
    mean_age ← lift (Float.truediv (Py.sum ages) (Z.of_nat (length ages)));
    lo_age ← lift (Py.min ages);
    hi_age ← lift (Py.max ages);
    mean_bmi ← lift (Float.div (Float.sum bmis) (inject_Z (Z.of_nat (length bmis))));
    lo_bmi ← lift (Float.min bmis);
    hi_bmi ← lift (Float.max bmis);
    mret (Statistics {|
      total_patients := total;
      age_stats := {|
        average_age := Float.round mean_age 1;
        min_age := lo_age;
        max_age := hi_age |};
      bmi_stats := {|
        average_bmi := Float.round mean_bmi 2;
        min_bmi := lo_bmi;
        max_bmi := hi_bmi |};
      gender_distribution := gender_stats;
      city_distribution := city_stats;
      bmi_verdict_distribution := verdict_stats
    |}).

(** [GET /view] *)
Definition view : io patients := load_data.

(** ** Requests *)

(** A request, named by the handler that serves it.  Matching the path of
    a request against the routes is FastAPI's and is not part of the model. *)
Inductive request : Type :=
  | GetAll
  | Get (patient_id : string)
  | Create (patient : Patient.t)
  | Update (patient_id : string) (patient_update : PatientUpdate.t)
  | Delete (patient_id : string)
  | ByCity (city_name : string)
  | Stats.

Definition handle (rq : request) : io response :=
  match rq with
  | GetAll => get_all_patients
  | Get patient_id => get_patient patient_id
  | Create patient => add_patient patient
  | Update patient_id patient_update => update_patient patient_id patient_update
  | Delete patient_id => delete_patient patient_id
  | ByCity city_name => get_patients_by_city city_name
  | Stats => get_patient_statistics
  end.

(** The requests of a list served one after the other: the results in the
    order of the requests, and the file after the last one. *)
Fixpoint serve (rqs : list request) (file : patients_json)
    : list (result response) * patients_json :=
  match rqs with
  | [] => ([], file)
  | rq :: rqs' =>
      let (r, file') := handle rq file in
      let (rs, file'') := serve rqs' file' in
      (r :: rs, file'')
  end.

(** * Specification *)

(** The collection a handler loads from the file, when the file can be read. *)
Definition collection (file : patients_json) : option patients :=
  match file with
  | Document data => Some data
  | FileNotFound => Some ∅
  | Undecodable => None
  end.


(** The BMI classification table. *)
Definition classified (b : Q) (v : string) : Prop :=
  ((b < 37 # 2)%Q → v = "Underweight") ∧
  ((37 # 2 <= b)%Q ∧ (b < 25)%Q → v = "Normal") ∧
  ((25 <= b)%Q ∧ (b < 30)%Q → v = "Overweight") ∧
  ((30 <= b)%Q → v = "Obese").






(** ** Identifiers *)

Fixpoint all_digits (s : string) : bool :=
  match s with
  | EmptyString => true
  | String c s' => Py.is_digit c && all_digits s'
  end.

(** ['P' followed by digits] *)
Definition is_patient_id (k : string) : bool :=
  match k with
  | String "P" (String c s) => all_digits (String c s)
  | _ => false
  end.

(** The number a string of digits denotes. *)
Definition numeral_value (s : string) : N :=
  match NilEmpty.uint_of_string s with
  | Some u => N.of_uint u
  | None => 0
  end.

(** The numeric suffix of an identifier. *)
Definition ordinal (k : string) : N :=
  match k with
  | String _ s => numeral_value s
  | EmptyString => 0
  end.

(** The decimal numeral of a number. *)
Definition decimal (n : N) : string := NilZero.string_of_uint (N.to_uint n).

(** The decimal numeral of a number, with zeros in front up to [width]
    characters. *)
Definition zero_padded (width : nat) (n : N) : string :=
  Py.zeros (width - String.length (decimal n)) ++ decimal n.

(** The identifier of ordinal [n]. *)
Definition patient_id_of (n : N) : string := String "P" (zero_padded 3 n).

(** [n] is the largest ordinal among the identifiers of [d]. *)
Definition max_ordinal (d : patients) (n : N) : Prop :=
  (∃ k, is_Some (d !! k) ∧ ordinal k = n) ∧
  (∀ k, is_Some (d !! k) → (ordinal k <= n)%N).

(** Every key of [d] is ['P' followed by digits]. *)
Definition well_keyed (d : patients) : Prop :=
  ∀ k, is_Some (d !! k) → is_patient_id k = true.

(** The identifiers that a list of results reports as added, in order. *)
Definition added_ids (rs : list (result response)) : list string :=
  omap (λ r, match r with
             | inr (PatientAdded patient_id _) => Some patient_id
             | _ => None
             end) rs.

(** The identifiers of ordinals [first], [first + 1], ..., [count] of them. *)
Definition consecutive_ids (first count : nat) : list string :=
  (λ i, patient_id_of (N.of_nat i)) <$> seq first count.

(** The keys of [d] are the identifiers of ordinals 1 to [k]. *)
Definition has_ids_up_to (k : nat) (d : patients) : Prop :=
  ∀ key, is_Some (d !! key)
         ↔ ∃ i, (1 ≤ i ≤ k)%nat ∧ key = patient_id_of (N.of_nat i).

(** A create request whose height is not zero. *)
Definition creatable (patient : Patient.t) : bool :=
  negb (Qeq_bool (Patient.height patient) 0).

(** ** Reachable states of the file *)

Inductive reachable : patients_json → Prop :=
  | reachable_no_file : reachable FileNotFound
  | reachable_empty : reachable (Document ∅)
  | reachable_step file rq :
      reachable file → reachable (handle rq file).2.

(** ** Statistics *)

Fixpoint total (l : list Z) : Z :=
  match l with
  | [] => 0
  | x :: l' => x + total l'
  end.

Fixpoint Qtotal (l : list Q) : Q :=
  match l with
  | [] => 0%Q
  | x :: l' => (x + Qtotal l')%Q
  end.

(** The records of a collection. *)
Definition records (d : patients) : list patient_data := (map_to_list d).*2.

(** The arithmetic means of the ages and of the BMIs of a collection. *)
Definition mean_age (d : patients) : Q :=
  (inject_Z (total (age <$> records d)) / inject_Z (Z.of_nat (size d)))%Q.

Definition mean_bmi (d : patients) : Q :=
  (Qtotal (bmi <$> records d) / inject_Z (Z.of_nat (size d)))%Q.







(** [case-insensitive comparison] *)
Definition same_city (query : string) (r : patient_data) : Prop :=
  Py.lower (city r) = Py.lower query.

(** ** Sample data *)

Definition alice : Patient.t := {|
  Patient.name := "Alice"; Patient.city := "Boston"; Patient.age := 20;
  Patient.gender := "female"; Patient.height := 17 # 10; Patient.weight := 867 # 10;
  Patient.bmi := None; Patient.verdict := None |}.

Definition bob : Patient.t := {|
  Patient.name := "Bob"; Patient.city := "Denver"; Patient.age := 40;
  Patient.gender := "male"; Patient.height := 2; Patient.weight := 80;
  Patient.bmi := Some (1 # 1); Patient.verdict := Some "Underweight" |}.

(** [alice] with derived fields supplied by the caller. *)
Definition alice_with_derived : Patient.t := {|
  Patient.name := "Alice"; Patient.city := "Boston"; Patient.age := 20;
  Patient.gender := "female"; Patient.height := 17 # 10; Patient.weight := 867 # 10;
  Patient.bmi := Some (22 # 1); Patient.verdict := Some "Normal" |}.

Definition alice_record : patient_data := {|
  name := "Alice"; city := "Boston"; age := 20; gender := "female";
  height := 17 # 10; weight := 867 # 10; bmi := 30; verdict := "Obese" |}.

Definition bob_record : patient_data := {|
  name := "Bob"; city := "Denver"; age := 40; gender := "male";
  height := 2; weight := 80; bmi := 20; verdict := "Normal" |}.

(** A request that gives a new weight and nothing else. *)
Definition only_weight (w : Q) : PatientUpdate.t := {|
  PatientUpdate.name := None; PatientUpdate.city := None;
  PatientUpdate.age := None; PatientUpdate.gender := None;
  PatientUpdate.height := None; PatientUpdate.weight := Some w |}.

(** The file after [alice], and after [alice] and [bob], were added to an
    empty collection. *)
Definition one_patient : patients_json := (add_patient alice FileNotFound).2.
Definition two_patients : patients_json := (add_patient bob one_patient).2.

(** ** Auxiliary definitions *)

(** The digits of a decimal read from the left into an accumulator, as
    [Py.digits] reads the characters of a string. *)
Fixpoint uint_value (u : Decimal.uint) (acc : N) : N :=
  match u with
  | Decimal.Nil => acc
  | Decimal.D0 l => uint_value l (10 * acc)%N
  | Decimal.D1 l => uint_value l (10 * acc + 1)%N
  | Decimal.D2 l => uint_value l (10 * acc + 2)%N
  | Decimal.D3 l => uint_value l (10 * acc + 3)%N
  | Decimal.D4 l => uint_value l (10 * acc + 4)%N
  | Decimal.D5 l => uint_value l (10 * acc + 5)%N
  | Decimal.D6 l => uint_value l (10 * acc + 6)%N
  | Decimal.D7 l => uint_value l (10 * acc + 7)%N
  | Decimal.D8 l => uint_value l (10 * acc + 8)%N
  | Decimal.D9 l => uint_value l (10 * acc + 9)%N
  end.

(** ** Further notions used by the properties of the handlers *)

(** [k] is a key that [generate_patient_id] can read: [int(k[1:])] is [v]. *)
Definition reads_as (k : string) (v : Z) : Prop := Py.int (Py.tail k) = inr v.

(** ['P' followed by at least three digits] *)
Definition is_generated_id (k : string) : bool :=
  is_patient_id k && (4 <=? String.length k)%nat.

(** The change of the number of records that a request makes when it
    succeeds. *)
Definition size_change (rq : request) : Z :=
  match rq with
  | Create _ => 1
  | Delete _ => -1
  | _ => 0
  end.

(** A request that does not write the file. *)
Definition read_only (rq : request) : bool :=
  match rq with
  | GetAll | Get _ | ByCity _ | Stats => true
  | Create _ | Update _ _ | Delete _ => false
  end.




(** The sum of the counts of a frequency table. *)
Definition table_total (table : gmap string Z) : Z :=
  map_fold (λ _ count acc, count + acc) 0 table.


(** A collection with a key that is no identifier. *)
Definition odd_collection : patients := {["stats" := alice_record]}.

(** The identifier of the record that a response reports as written. *)
Definition written_id (resp : response) : option string :=
  match resp with
  | PatientAdded patient_id _
  | PatientUpdated patient_id _
  | PatientDeleted patient_id _ => Some patient_id
  | _ => None
  end.

(** ** Routes *)

(** The decorators of [project.py] register its handlers as the routes of
    [app], in the order of the file.  A request goes to the first route
    whose path matches the path of the request and whose method is the
    method of the request.  A path parameter [{name}] matches one or more
    characters other than ["/"], as many as there are, and the end of a
    route's path matches the end of the request's path or a last line
    feed.  In the routes of [app] a parameter is followed by the end of the
    path.  The routes that the framework adds by itself (the documentation
    pages) have paths that no route of [project.py] matches and are left
    out; so are the methods that no decorator of the file uses.  The
    requests of [handle] are named by their handler; [dispatch] is the step
    before it, from a method and a path to the handler and its arguments. *)
Module App.

Inductive method : Type := GET | POST | PUT | DELETE.

#[global] Instance method_eq_dec : EqDecision method.
Proof. solve_decision. Defined.

(** The functions that the decorators register. *)
Inductive endpoint : Type :=
  | Root
  | About
  | GetAllPatients
  | GetPatient
  | AddPatient
  | UpdatePatient
  | DeletePatient
  | GetPatientsByCity
  | GetPatientStatistics
  | View.

(** A piece of the path of a route: literal text or [{name}]. *)
Inductive part : Type :=
  | Lit (text : string)
  | Param (name : string).

Record route : Type := {
  route_method : method;
  route_path : list part;
  route_endpoint : endpoint
}.

(** [path] without the leading [text], when it starts with it *)
Fixpoint strip_prefix (text path : string) : option string :=
  match text, path with
  | EmptyString, _ => Some path
  | String c text', String c' path' =>
      if Ascii.eqb c c' then strip_prefix text' path' else None
  | String _ _, EmptyString => None
  end.

(** The longest prefix of [path] without ["/"], and what follows it *)
Fixpoint segment (path : string) : string * string :=
  match path with
  | EmptyString => (EmptyString, EmptyString)
  | String c path' =>
      if Ascii.eqb c "/"%char then (EmptyString, path)
      else let (value, rest) := segment path' in (String c value, rest)
  end.

(** The end of the path, or a line feed that ends it *)
Definition at_end (rest : string) : bool :=
  bool_decide (rest = EmptyString)
  || bool_decide (rest = String (ascii_of_nat 10) EmptyString).

(** The path parameters of [path] when it matches the path of a route *)
Fixpoint matches (pattern : list part) (path : string)
    : option (list (string * string)) :=
  match pattern with
  | [] => if at_end path then Some [] else None
  | Lit text :: pattern' =>
      match strip_prefix text path with
      | Some rest => matches pattern' rest
      | None => None
      end
  | Param name :: pattern' =>
      let (value, rest) := segment path in
      if bool_decide (value = EmptyString) then None
      else
        match matches pattern' rest with
        | Some params => Some ((name, value) :: params)
        | None => None
        end
  end.

(** The routes of [app], in the order of the decorators. *)
Definition routes : list route := [
  {| route_method := GET; route_path := [Lit "/"]; route_endpoint := Root |};
  {| route_method := GET; route_path := [Lit "/about"]; route_endpoint := About |};
  {| route_method := GET; route_path := [Lit "/patients"];
     route_endpoint := GetAllPatients |};
  {| route_method := GET; route_path := [Lit "/patients/"; Param "patient_id"];
     route_endpoint := GetPatient |};
  {| route_method := POST; route_path := [Lit "/patients"];
     route_endpoint := AddPatient |};
  {| route_method := PUT; route_path := [Lit "/patients/"; Param "patient_id"];
     route_endpoint := UpdatePatient |};
  {| route_method := DELETE; route_path := [Lit "/patients/"; Param "patient_id"];
     route_endpoint := DeletePatient |};
  {| route_method := GET; route_path := [Lit "/patients/city/"; Param "city"];
     route_endpoint := GetPatientsByCity |};
  {| route_method := GET; route_path := [Lit "/patients/stats"];
     route_endpoint := GetPatientStatistics |};
  {| route_method := GET; route_path := [Lit "/view"]; route_endpoint := View |}
].

(** The first route of [rs] that matches the method and the path, with the
    path parameters. *)
Fixpoint first_match (rs : list route) (m : method) (path : string)
    : option (endpoint * list (string * string)) :=
  match rs with
  | [] => None
  | r :: rs' =>
      match matches (route_path r) path with
      | Some params =>
          if decide (route_method r = m) then Some (route_endpoint r, params)
          else first_match rs' m path
      | None => first_match rs' m path
      end
  end.

Definition dispatch (m : method) (path : string)
    : option (endpoint * list (string * string)) :=
  first_match routes m path.

(** The value of a path parameter *)
Fixpoint param (name : string) (params : list (string * string)) : option string :=
  match params with
  | [] => None
  | (n, value) :: params' =>
      if decide (n = name) then Some value else param name params'
  end.

(** The call that a route without a request body makes: the handler with
    the path parameters as its arguments. *)
Definition call (e : endpoint) (params : list (string * string)) : option request :=
  match e with
  | GetAllPatients => Some GetAll
  | GetPatient => Get <$> param "patient_id" params
  | DeletePatient => Delete <$> param "patient_id" params
  | GetPatientsByCity => ByCity <$> param "city" params
  | GetPatientStatistics => Some Stats
  | Root | About | View | AddPatient | UpdatePatient => None
  end.

End App.

(** * Properties *)

(** ** The built-in functions on concrete inputs *)

Example int_001 : Py.int "001" = inr 1.
Proof. reflexivity. Qed.
Example int_blank : Py.int "" = inl ValueError.
Proof. reflexivity. Qed.
Example int_signed : Py.int " -1_0 " = inr (-10).
Proof. reflexivity. Qed.
Example int_bad : Py.int "1__0" = inl ValueError.
Proof. reflexivity. Qed.
Example zfill_5 : Py.zfill 3 (Py.str 5) = "005".
Proof. reflexivity. Qed.
Example zfill_1000 : Py.zfill 3 (Py.str 1000) = "1000".
Proof. reflexivity. Qed.
Example zfill_neg : Py.zfill 3 (Py.str (-4)) = "-04".
Proof. reflexivity. Qed.
Example round_tie_even : Float.round (1 # 8) 2 = (3 # 25)%Q.
Proof. reflexivity. Qed.
Example round_tie_odd : Float.round (3 # 8) 2 = (19 # 50)%Q.
Proof. reflexivity. Qed.
Example round_negative : Float.round (- (1 # 8)) 2 = (- (3 # 25))%Q.
Proof. reflexivity. Qed.
Example lower_mixed : Py.lower "BoStOn 42" = "boston 42".
Proof. reflexivity. Qed.

(** ** The helper functions on concrete inputs *)

Example bmi_of_alice : calculate_bmi (17 # 10) (867 # 10) = inr 30%Q.
Proof. reflexivity. Qed.
Example bmi_is_rounded : calculate_bmi (175 # 100) 70 = inr (1143 # 50)%Q.
Proof. reflexivity. Qed.
Example bmi_of_height_zero : calculate_bmi 0 70 = inl ZeroDivisionError.
Proof. reflexivity. Qed.
Example verdict_18_49 : get_bmi_verdict (1849 # 100) = "Underweight".
Proof. reflexivity. Qed.
Example verdict_18_5 : get_bmi_verdict (37 # 2) = "Normal".
Proof. reflexivity. Qed.
Example verdict_24_999 : get_bmi_verdict (24999 # 1000) = "Normal".
Proof. reflexivity. Qed.
Example verdict_25 : get_bmi_verdict 25 = "Overweight".
Proof. reflexivity. Qed.
Example verdict_29_999 : get_bmi_verdict (29999 # 1000) = "Overweight".
Proof. reflexivity. Qed.
Example verdict_30 : get_bmi_verdict 30 = "Obese".
Proof. reflexivity. Qed.
Example value_of_007 : numeral_value "007" = 7%N.
Proof. reflexivity. Qed.
Example ordinal_of_P042 : ordinal "P042" = 42%N.
Proof. reflexivity. Qed.
Example decimal_of_1000 : decimal 1000 = "1000".
Proof. reflexivity. Qed.
Example is_id_P042 : is_patient_id "P042" = true.
Proof. reflexivity. Qed.
Example is_id_P : is_patient_id "P" = false.
Proof. reflexivity. Qed.
Example is_id_signed : is_patient_id "P-42" = false.
Proof. reflexivity. Qed.
Example id_of_1 : patient_id_of 1 = "P001".
Proof. reflexivity. Qed.
Example id_of_12 : patient_id_of 12 = "P012".
Proof. reflexivity. Qed.
Example id_of_999 : patient_id_of 999 = "P999".
Proof. reflexivity. Qed.
Example id_of_1000 : patient_id_of 1000 = "P1000".
Proof. reflexivity. Qed.
Example ids_1_to_3 : consecutive_ids 1 3 = ["P001"; "P002"; "P003"].
Proof. reflexivity. Qed.

(** ** The handlers on concrete requests *)

Example add_alice :
  add_patient alice FileNotFound
  = (inr (PatientAdded "P001" alice_record), Document {["P001" := alice_record]}).
Proof. vm_compute. reflexivity. Qed.

Example get_missing : get_patient "P002" one_patient = (inl not_found, one_patient).
Proof. vm_compute. reflexivity. Qed.

(** After P001 is deleted the next identifier is P003. *)
Example delete_first_then_add :
  added_ids (serve [Create alice; Create bob; Delete "P001"; Create alice] FileNotFound).1
  = ["P001"; "P002"; "P003"].
Proof. vm_compute. reflexivity. Qed.

(** After the last identifier is deleted the next create assigns it again. *)
Example delete_last_then_add :
  added_ids (serve [Create alice; Create bob; Delete "P002"; Create alice] FileNotFound).1
  = ["P001"; "P002"; "P002"].
Proof. vm_compute. reflexivity. Qed.

Example update_height_zero :
  update_patient "P001"
    {| PatientUpdate.name := None; PatientUpdate.city := None;
       PatientUpdate.age := None; PatientUpdate.gender := None;
       PatientUpdate.height := Some 0%Q; PatientUpdate.weight := None |}
    one_patient
  = (inl ZeroDivisionError, one_patient).
Proof. vm_compute. reflexivity. Qed.

(** ** Comparison, squaring and rounding *)

Section float_facts.
Local Open Scope Q_scope.

Lemma lt_spec x y : Float.lt x y = true ↔ x < y.
Proof.
  unfold Float.lt. rewrite Qlt_alt. destruct (x ?= y); split; congruence.
Qed.

Lemma le_spec x y : Float.le x y = true ↔ x <= y.
Proof.
  unfold Float.le. rewrite Qle_alt. destruct (x ?= y); split; congruence.
Qed.

Lemma lt_false x y : Float.lt x y = false ↔ y <= x.
Proof.
  rewrite <- not_true_iff_false, lt_spec.
  split; [apply Qnot_lt_le | apply Qle_not_lt].
Qed.

Lemma le_false x y : Float.le x y = false ↔ y < x.
Proof.
  rewrite <- not_true_iff_false, le_spec.
  split; [apply Qnot_le_lt | apply Qlt_not_le].
Qed.

Lemma square_zero x : x * x == 0 ↔ x == 0.
Proof.
  split; intros H.
  - destruct (Qmult_integral _ _ H); assumption.
  - rewrite H. reflexivity.
Qed.







Lemma calculate_bmi_nonzero h w :
  ¬ h == 0 → calculate_bmi h w = inr (Float.round (w / h ^ 2) 2).
Proof.
  intros Hh. unfold calculate_bmi, Float.div.
  change (h ^ 2) with (h * h). change (Float.pow h 2) with (h * h).
  destruct (Qeq_bool (h * h) 0) eqn:E; [|reflexivity].
  apply Qeq_bool_eq in E. apply (proj1 (square_zero h)) in E. contradiction.
Qed.

Lemma calculate_bmi_zero h w :
  h == 0 → calculate_bmi h w = inl ZeroDivisionError.
Proof.
  intros Hh. unfold calculate_bmi, Float.div.
  change (Float.pow h 2) with (h * h).
  destruct (Qeq_bool (h * h) 0) eqn:E; [reflexivity|].
  apply Qeq_bool_neq in E. apply (proj2 (square_zero h)) in Hh. contradiction.
Qed.

Lemma calculate_bmi_inr h w b :
  calculate_bmi h w = inr b → ¬ h == 0 ∧ b = Float.round (w / h ^ 2) 2.
Proof.
  destruct (Qeq_dec h 0) as [Hz|Hz].
  - rewrite (calculate_bmi_zero _ _ Hz). discriminate.
  - rewrite (calculate_bmi_nonzero _ _ Hz). intros [= <-]. split; [exact Hz | reflexivity].
Qed.


(** [get_bmi_verdict] follows the classification table. *)
Lemma get_bmi_verdict_classified b : classified b (get_bmi_verdict b).
Proof.
  unfold classified, get_bmi_verdict.
  destruct (Float.lt b (37 # 2)) eqn:E1;
    [apply lt_spec in E1 | apply lt_false in E1];
  destruct (Float.le (37 # 2) b) eqn:E2;
    [apply le_spec in E2 | apply le_false in E2 | apply le_spec in E2 | apply le_false in E2];
  destruct (Float.lt b 25) eqn:E3;
    try apply lt_spec in E3; try apply lt_false in E3;
  destruct (Float.le 25 b) eqn:E4;
    try apply le_spec in E4; try apply le_false in E4;
  destruct (Float.lt b 30) eqn:E5;
    try apply lt_spec in E5; try apply lt_false in E5;
  cbn; repeat split; intros; try reflexivity; exfalso; lra.
Qed.

End float_facts.

(** ** The handlers, step by step *)

Lemma load_data_collection file d :
  collection file = Some d → load_data file = (inr d, file).
Proof. destruct file; intros [= <-]; reflexivity. Qed.

Lemma load_data_undecodable file :
  collection file = None →
  load_data file = (inl (HTTPException 500 "Error reading patient data"), file).
Proof. destruct file; intros [=]; reflexivity. Qed.

Ltac run_handler :=
  unfold get_all_patients, get_patient, add_patient, update_patient,
    delete_patient, get_patients_by_city, get_patient_statistics;
  unfold mbind, io_bind, mret, io_ret, raise, lift, save_data.

(** A handler called on a file that cannot be decoded raises and leaves the
    file as it is. *)
Lemma handle_undecodable rq file :
  collection file = None →
  handle rq file = (inl (HTTPException 500 "Error reading patient data"), file).
Proof.
  intros H. destruct rq; simpl; run_handler;
    rewrite (load_data_undecodable _ H); reflexivity.
Qed.

Lemma get_patient_run file d patient_id :
  collection file = Some d →
  get_patient patient_id file =
    match d !! patient_id with
    | None => (inl not_found, file)
    | Some r => (inr (PatientFound patient_id r), file)
    end.
Proof.
  intros H. run_handler. rewrite (load_data_collection _ _ H).
  destruct (d !! patient_id); reflexivity.
Qed.

Lemma add_patient_run file d patient :
  collection file = Some d →
  add_patient patient file =
    match generate_patient_id d with
    | inl e => (inl e, file)
    | inr patient_id =>
        match calculate_bmi (Patient.height patient) (Patient.weight patient) with
        | inl e => (inl e, file)
        | inr b =>
            let r := {|
              name := Patient.name patient;
              city := Patient.city patient;
              age := Patient.age patient;
              gender := Patient.gender patient;
              height := Patient.height patient;
              weight := Patient.weight patient;
              bmi := b;
              verdict := get_bmi_verdict b |} in
            (inr (PatientAdded patient_id r), Document (<[patient_id := r]> d))
        end
    end.
Proof.
  intros H. run_handler. rewrite (load_data_collection _ _ H).
  destruct (generate_patient_id d); [reflexivity|].
  destruct (calculate_bmi _ _); reflexivity.
Qed.

Lemma update_patient_run file d patient_id patient_update :
  collection file = Some d →
  update_patient patient_id patient_update file =
    match d !! patient_id with
    | None => (inl not_found, file)
    | Some old =>
        let r := apply_update patient_update old in
        if touches_bmi patient_update then
          match calculate_bmi (height r) (weight r) with
          | inl e => (inl e, file)
          | inr b =>
              let r' := set_bmi b (get_bmi_verdict b) r in
              (inr (PatientUpdated patient_id r'), Document (<[patient_id := r']> d))
          end
        else (inr (PatientUpdated patient_id r), Document (<[patient_id := r]> d))
    end.
Proof.
  intros H. run_handler. rewrite (load_data_collection _ _ H).
  destruct (d !! patient_id); [|reflexivity].
  cbv zeta. destruct (touches_bmi patient_update); [|reflexivity].
  destruct (calculate_bmi _ _); reflexivity.
Qed.

Lemma delete_patient_run file d patient_id :
  collection file = Some d →
  delete_patient patient_id file =
    match d !! patient_id with
    | None => (inl not_found, file)
    | Some r => (inr (PatientDeleted patient_id r), Document (delete patient_id d))
    end.
Proof.
  intros H. run_handler. rewrite (load_data_collection _ _ H).
  destruct (d !! patient_id); reflexivity.
Qed.

Lemma get_patients_by_city_run file d query :
  collection file = Some d →
  get_patients_by_city query file =
    let found := filter (λ kv, Py.lower (city kv.2) = Py.lower query) d in
    if decide (found = ∅) then (inr (NoPatientsFoundIn query), file)
    else (inr (CityPatients query (len found) found), file).
Proof.
  intros H. run_handler. rewrite (load_data_collection _ _ H).
  cbv zeta. destruct (decide _); reflexivity.
Qed.


(** ** Derived fields of a stored record *)





(** ** Partial update *)




Lemma one_patient_collection :
  collection one_patient = Some {["P001" := alice_record]}.
Proof. vm_compute. reflexivity. Qed.



(** ** Decimal numerals and identifiers *)

Section numerals.

Lemma digit_not_special c :
  Py.is_digit c = true →
  Py.is_space c = false ∧ (Py.code c =? 45)%N = false
  ∧ (Py.code c =? 43)%N = false ∧ (Py.code c =? 95)%N = false.
Proof.
  destruct c as [[] [] [] [] [] [] [] []]; vm_compute; intros H;
    first [discriminate H | repeat split].
Qed.

Lemma digits_string_of_uint u acc :
  Py.digits acc true (NilEmpty.string_of_uint u) = Some (uint_value u acc).
Proof.
  revert acc. induction u; intros acc; simpl NilEmpty.string_of_uint;
    [reflexivity | ..];
    cbn [Py.digits]; (match goal with |- context [Py.is_digit ?c] =>
       change (Py.is_digit c) with true;
       cbv iota; rewrite IHu; cbn [uint_value]; f_equal; f_equal
     end); unfold Py.digit_value; cbn; lia.
Qed.

Lemma of_uint_positional u :
  N.of_uint u = (DecimalPos.Unsigned.hd u * 10 ^ DecimalPos.Unsigned.usize (DecimalPos.Unsigned.tl u) + N.of_uint (DecimalPos.Unsigned.tl u))%N.
Proof.
  unfold N.of_uint.
  destruct u; cbn [DecimalPos.Unsigned.hd DecimalPos.Unsigned.tl Pos.of_uint];
    try reflexivity;
    rewrite DecimalPos.Unsigned.of_uint_acc_rev, <- DecimalPos.Unsigned.of_uint_alt; lia.
Qed.


Lemma uint_value_positional u acc :
  uint_value u acc = (acc * 10 ^ DecimalPos.Unsigned.usize u + N.of_uint u)%N.
Proof.
  revert acc. induction u; intros acc;
    [cbn; lia | ..];
    rewrite (of_uint_positional (_ u));
    cbn [uint_value DecimalPos.Unsigned.usize DecimalPos.Unsigned.hd DecimalPos.Unsigned.tl];
    rewrite IHu, N.pow_succ_r'; lia.
Qed.

Lemma digits_numeral u :
  Py.digits 0 true (NilEmpty.string_of_uint u) = Some (N.of_uint u).
Proof.
  rewrite digits_string_of_uint, uint_value_positional. reflexivity.
Qed.

Lemma of_uint_bound u : (N.of_uint u < 10 ^ DecimalPos.Unsigned.usize u)%N.
Proof.
  induction u; [cbn; lia | ..];
    rewrite (of_uint_positional (_ u));
    cbn [DecimalPos.Unsigned.usize DecimalPos.Unsigned.hd DecimalPos.Unsigned.tl];
    rewrite N.pow_succ_r'; lia.
Qed.

Lemma all_digits_string_of_uint u : all_digits (NilEmpty.string_of_uint u) = true.
Proof. induction u; [reflexivity | ..]; simpl; exact IHu. Qed.

Lemma all_digits_uint s :
  all_digits s = true → ∃ u, NilEmpty.uint_of_string s = Some u ∧ NilEmpty.string_of_uint u = s.
Proof.
  induction s as [|c s IH]; [exists Decimal.Nil; split; reflexivity|].
  simpl. intros H. apply andb_true_iff in H as [Hc Hs].
  destruct (IH Hs) as (u & Hu & Hsu). rewrite Hu.
  assert (∃ u', uint_of_char c (Some u) = Some u') as [u' Hu'].
  { destruct c as [[] [] [] [] [] [] [] []]; try discriminate Hc; eexists; reflexivity. }
  exists u'. split; [exact Hu'|].
  apply NilEmpty.sus. simpl. rewrite Hu. exact Hu'.
Qed.

Lemma usize_length u :
  DecimalPos.Unsigned.usize u = N.of_nat (String.length (NilEmpty.string_of_uint u)).
Proof. induction u; [reflexivity | ..]; simpl; rewrite IHu; lia. Qed.

(** A string of digits denotes a number below [10 ^ length]. *)
Lemma numeral_value_bound s :
  all_digits s = true → (numeral_value s < 10 ^ N.of_nat (String.length s))%N.
Proof.
  intros H. destruct (all_digits_uint s H) as (u & Hu & Hs).
  unfold numeral_value. rewrite Hu, <- Hs, <- usize_length. apply of_uint_bound.
Qed.

Lemma rstrip_digits s : all_digits s = true → Py.rstrip s = s.
Proof.
  induction s as [|c s IH]; [reflexivity|].
  simpl. intros H. apply andb_true_iff in H as [Hc Hs].
  rewrite (IH Hs). destruct s; [|reflexivity].
  destruct (digit_not_special c Hc) as [-> _]. reflexivity.
Qed.

(** [int] reads a non-empty string of digits as the number it denotes. *)
Lemma int_digits s :
  all_digits s = true → s ≠ EmptyString → Py.int s = inr (Z.of_N (numeral_value s)).
Proof.
  intros H Hne. destruct s as [|c s]; [contradiction|].
  pose proof H as Hall. simpl in H. apply andb_true_iff in H as [Hc Hs].
  destruct (digit_not_special c Hc) as (Hsp & Hminus & Hplus & _).
  unfold Py.int. cbn [Py.lstrip]. rewrite Hsp, (rstrip_digits _ Hall), Hminus, Hplus.
  cbn [fst snd].
  destruct (all_digits_uint _ Hall) as (u & Hu & Hsu).
  unfold numeral_value. rewrite Hu.
  assert (E : Py.digits 0 false (String c s) = Py.digits 0 true (String c s)).
  { cbn [Py.digits]. rewrite Hc. reflexivity. }
  rewrite E, <- Hsu, digits_numeral. reflexivity.
Qed.


Lemma str_decimal n : Py.str (Z.of_N n) = decimal n.
Proof. destruct n; reflexivity. Qed.

Lemma decimal_string_of_uint n :
  decimal n = NilEmpty.string_of_uint (N.to_uint n).
Proof.
  unfold decimal, NilZero.string_of_uint.
  destruct (N.to_uint n) eqn:E; try reflexivity.
  destruct n; [discriminate E|]. simpl in E.
  destruct (DecimalPos.Unsigned.to_uint_nonnil _ E).
Qed.

Lemma decimal_digits n : all_digits (decimal n) = true.
Proof. rewrite decimal_string_of_uint. apply all_digits_string_of_uint. Qed.

Lemma decimal_nonempty n : decimal n ≠ EmptyString.
Proof.
  unfold decimal, NilZero.string_of_uint.
  destruct (N.to_uint n); discriminate.
Qed.

(** The decimal numeral of [n] denotes [n]. *)
Lemma decimal_value n : numeral_value (decimal n) = n.
Proof.
  unfold numeral_value. rewrite decimal_string_of_uint, NilEmpty.usu.
  apply DecimalN.Unsigned.of_to.
Qed.

Lemma zfill_decimal width n : Py.zfill width (decimal n) = zero_padded width n.
Proof.
  unfold Py.zfill, zero_padded.
  pose proof (decimal_digits n) as Hd. pose proof (decimal_nonempty n) as Hne.
  destruct (decimal n) as [|c s]; [contradiction|].
  simpl in Hd. apply andb_true_iff in Hd as [Hc _].
  destruct (digit_not_special c Hc) as (_ & -> & -> & _). reflexivity.
Qed.

Lemma all_digits_zeros k s : all_digits (Py.zeros k ++ s) = all_digits s.
Proof. induction k; [reflexivity|]. simpl. exact IHk. Qed.

Lemma numeral_value_zeros k s : numeral_value (Py.zeros k ++ s) = numeral_value s.
Proof.
  induction k; [reflexivity|]. rewrite <- IHk. unfold numeral_value. simpl.
  destruct (NilEmpty.uint_of_string (Py.zeros k ++ s)); reflexivity.
Qed.

Lemma zero_padded_digits width n : all_digits (zero_padded width n) = true.
Proof. unfold zero_padded. rewrite all_digits_zeros. apply decimal_digits. Qed.

Lemma zero_padded_nonempty width n : zero_padded width n ≠ EmptyString.
Proof.
  unfold zero_padded. pose proof (decimal_nonempty n).
  destruct (Py.zeros _); [assumption | discriminate].
Qed.

Lemma zero_padded_value width n : numeral_value (zero_padded width n) = n.
Proof. unfold zero_padded. rewrite numeral_value_zeros. apply decimal_value. Qed.

Lemma patient_id_of_is_patient_id n : is_patient_id (patient_id_of n) = true.
Proof.
  unfold patient_id_of, is_patient_id.
  pose proof (zero_padded_digits 3 n). pose proof (zero_padded_nonempty 3 n).
  destruct (zero_padded 3 n); [contradiction | assumption].
Qed.

Lemma ordinal_patient_id_of n : ordinal (patient_id_of n) = n.
Proof. apply zero_padded_value. Qed.

Lemma patient_id_of_inj n m : patient_id_of n = patient_id_of m → n = m.
Proof.
  intros H. rewrite <- (ordinal_patient_id_of n), H. apply ordinal_patient_id_of.
Qed.

(** [int(pid[1:])] on an identifier. *)
Lemma int_tail_patient_id k :
  is_patient_id k = true → Py.int (Py.tail k) = inr (Z.of_N (ordinal k)).
Proof.
  unfold is_patient_id. destruct k as [|c [|c' s]]; try discriminate.
  - destruct c as [[] [] [] [] [] [] [] []]; discriminate.
  - intros H.
    assert (Hd : all_digits (String c' s) = true).
    { destruct c as [[] [] [] [] [] [] [] []]; first [discriminate H | exact H]. }
    apply int_digits; [exact Hd | discriminate].
Qed.

End numerals.

(** ** Generation of identifiers *)

Lemma result_map_total {A B} (f : A → result B) (g : A → B) (l : list A) :
  (∀ x, x ∈ l → f x = inr (g x)) → result_map f l = inr (g <$> l).
Proof.
  induction l as [|x l IH]; intros H; [reflexivity|].
  simpl. rewrite (H x) by apply list_elem_of_here. simpl.
  rewrite IH; [reflexivity|]. intros y Hy. apply H. apply list_elem_of_further, Hy.
Qed.

Lemma fold_max_upper (l : list Z) (x : Z) :
  (x ≤ fold_left Z.max l x)%Z ∧ ∀ y, y ∈ l → (y ≤ fold_left Z.max l x)%Z.
Proof.
  revert x. induction l as [|z l IH]; intros x; simpl.
  - split; [lia|]. intros y Hy. inversion Hy.
  - destruct (IH (Z.max x z)) as [H1 H2]. split; [lia|].
    intros y Hy. apply elem_of_cons in Hy as [-> | Hy]; [lia | apply H2, Hy].
Qed.

Lemma fold_max_member (l : list Z) (x : Z) : fold_left Z.max l x ∈ x :: l.
Proof.
  revert x. induction l as [|z l IH]; intros x; simpl.
  - apply list_elem_of_here.
  - specialize (IH (Z.max x z)). apply elem_of_cons in IH as [E | IH].
    + rewrite E. destruct (Z.max_spec x z) as [[_ ->] | [_ ->]];
        [apply list_elem_of_further, list_elem_of_here | apply list_elem_of_here].
    + apply list_elem_of_further, list_elem_of_further, IH.
Qed.



Lemma elem_of_keys {A} (d : gmap string A) k : k ∈ keys d ↔ is_Some (d !! k).
Proof.
  unfold keys. rewrite list_elem_of_fmap. split.
  - intros ([k' x] & -> & H). apply elem_of_map_to_list in H. eexists; exact H.
  - intros [x H]. exists (k, x). split; [reflexivity|]. apply elem_of_map_to_list, H.
Qed.

Lemma max_ordinal_unique d n m : max_ordinal d n → max_ordinal d m → n = m.
Proof.
  intros [(k & Hk & <-) Hn] [(k' & Hk' & <-) Hm].
  apply N.le_antisymm; [apply Hm, Hk | apply Hn, Hk'].
Qed.

(** The identifier generated for a collection that is not empty and whose
    keys all are ['P' followed by digits]. *)
Lemma generate_patient_id_next d :
  d ≠ ∅ → well_keyed d →
  ∃ n, max_ordinal d n ∧ generate_patient_id d = inr (patient_id_of (n + 1)).
Proof.
  intros Hne Hkeys. unfold generate_patient_id.
  destruct (decide (d = ∅)) as [|_]; [contradiction|].
  rewrite (result_map_total _ (λ k, Z.of_N (ordinal k))).
  2: { intros k Hk. apply int_tail_patient_id, Hkeys, elem_of_keys, Hk. }
  cbn [mbind result_mbind result_bind].
  destruct (keys d) as [|k0 ks] eqn:Ek.
  { exfalso. apply Hne. apply map_to_list_empty_iff.
    unfold keys in Ek. destruct (map_to_list d); [reflexivity | discriminate]. }
  cbn [fmap list_fmap Py.max mbind result_mbind result_bind mret result_ret].
  set (m := fold_left Z.max _ _).
  assert (Hm : ∃ k, k ∈ k0 :: ks ∧ m = Z.of_N (ordinal k)).
  { pose proof (fold_max_member ((λ k, Z.of_N (ordinal k)) <$> ks) (Z.of_N (ordinal k0))) as H.
    change (m ∈ (λ k, Z.of_N (ordinal k)) <$> (k0 :: ks)) in H.
    apply list_elem_of_fmap in H as (k & -> & Hk). exists k. split; [exact Hk | reflexivity]. }
  destruct Hm as (k & Hk & Em).
  exists (ordinal k). split.
  - split.
    + exists k. split; [|reflexivity]. apply elem_of_keys. rewrite Ek. exact Hk.
    + intros k' Hk'. apply elem_of_keys in Hk'. rewrite Ek in Hk'.
      apply N2Z.inj_le. rewrite <- Em.
      destruct (fold_max_upper ((λ k, Z.of_N (ordinal k)) <$> ks) (Z.of_N (ordinal k0)))
        as [H0 Hrest]. fold m in H0, Hrest.
      apply elem_of_cons in Hk' as [-> | Hk']; [exact H0|].
      apply Hrest. apply list_elem_of_fmap. exists k'. split; [reflexivity | exact Hk'].
  - rewrite Em. replace (Z.of_N (ordinal k) + 1) with (Z.of_N (ordinal k + 1)) by lia.
    rewrite str_decimal, zfill_decimal. reflexivity.
Qed.

Lemma generate_patient_id_empty : generate_patient_id ∅ = inr "P001".
Proof. reflexivity. Qed.

(** ** Identifiers of records created in sequence *)

Lemma has_ids_up_to_next k d :
  has_ids_up_to k d →
  generate_patient_id d = inr (patient_id_of (N.of_nat (S k))).
Proof.
  intros Hids. destruct k as [|k].
  - assert (d = ∅) as ->; [|reflexivity].
    apply map_empty. intros key. apply eq_None_not_Some. intros Hk.
    apply Hids in Hk as (i & Hi & _). lia.
  - assert (Hlast : is_Some (d !! patient_id_of (N.of_nat (S k)))).
    { apply Hids. exists (S k). split; [lia | reflexivity]. }
    assert (Hne : d ≠ ∅).
    { intros ->. rewrite lookup_empty in Hlast. destruct Hlast; discriminate. }
    assert (Hkeys : well_keyed d).
    { intros key Hk. apply Hids in Hk as (i & _ & ->).
      apply patient_id_of_is_patient_id. }
    destruct (generate_patient_id_next d Hne Hkeys) as (n & Hmax & ->).
    assert (Hmax' : max_ordinal d (N.of_nat (S k))).
    { split.
      - eexists. split; [exact Hlast | apply ordinal_patient_id_of].
      - intros key Hk. apply Hids in Hk as (i & Hi & ->).
        rewrite ordinal_patient_id_of. lia. }
    rewrite (max_ordinal_unique _ _ _ Hmax Hmax').
    f_equal. f_equal. lia.
Qed.

Lemma has_ids_up_to_insert k d r :
  has_ids_up_to k d →
  has_ids_up_to (S k) (<[patient_id_of (N.of_nat (S k)) := r]> d).
Proof.
  intros Hids key. rewrite lookup_insert. case_decide as E.
  - split; [|intros _; eexists; reflexivity].
    intros _. exists (S k). split; [lia | congruence].
  - rewrite (Hids key). split; intros (i & Hi & ->).
    + exists i. split; [lia | reflexivity].
    + exists i. split; [|reflexivity].
      destruct (decide (i = S k)) as [->|]; [contradiction | lia].
Qed.

Lemma creatable_spec patient :
  creatable patient = true ↔ ¬ (Patient.height patient == 0)%Q.
Proof.
  unfold creatable. rewrite negb_true_iff. split.
  - intros H. apply Qeq_bool_neq, H.
  - intros H. destruct (Qeq_bool _ _) eqn:E; [|reflexivity].
    apply Qeq_bool_eq in E. contradiction.
Qed.

(** Create requests served one after the other: the ones with a height
    other than zero get the next identifiers, in order. *)
Lemma serve_creates ps : ∀ k file d,
  collection file = Some d → has_ids_up_to k d →
  added_ids (serve (Create <$> ps) file).1
    = consecutive_ids (S k) (length (filter (λ p, creatable p = true) ps)).
Proof.
  induction ps as [|p ps IH]; intros k file d Hc Hids; [reflexivity|].
  cbn [fmap list_fmap serve handle].
  rewrite (add_patient_run _ _ _ Hc), (has_ids_up_to_next _ _ Hids).
  rewrite filter_cons.
  destruct (decide (creatable p = true)) as [Hp | Hp].
  - apply creatable_spec in Hp. rewrite (calculate_bmi_nonzero _ _ Hp).
    cbv beta iota zeta.
    match goal with
    | |- context [serve ?rqs (Document ?d')] =>
        specialize (IH (S k) (Document d') d' eq_refl
                      (has_ids_up_to_insert _ _ _ Hids));
        destruct (serve rqs (Document d')) as [rs file'']
    end.
    simpl in IH |- *. rewrite IH. reflexivity.
  - assert (Hz : (Patient.height p == 0)%Q).
    { destruct (Qeq_dec (Patient.height p) 0) as [|Hnz]; [assumption|].
      apply creatable_spec in Hnz. contradiction. }
    rewrite (calculate_bmi_zero _ _ Hz). cbv beta iota zeta.
    specialize (IH k file d Hc Hids).
    destruct (serve (Create <$> ps) file) as [rs file''].
    simpl in IH |- *. exact IH.
Qed.

Lemma filter_creatable ps :
  Forall (λ p, ¬ (Patient.height p == 0)%Q) ps →
  filter (λ p, creatable p = true) ps = ps.
Proof.
  induction 1 as [|p ps Hp _ IH]; [reflexivity|].
  rewrite filter_cons, decide_True by (apply creatable_spec, Hp).
  rewrite IH. reflexivity.
Qed.

Lemma max_ordinal_absent d n : max_ordinal d n → d !! patient_id_of (n + 1) = None.
Proof.
  intros [_ Hmax]. apply eq_None_not_Some. intros H. apply Hmax in H.
  rewrite ordinal_patient_id_of in H. lia.
Qed.

Lemma max_ordinal_delete d n k :
  max_ordinal d n → (ordinal k < n)%N → max_ordinal (delete k d) n.
Proof.
  intros [(k0 & Hk0 & E) Hmax] Hlt. split.
  - exists k0. split; [|exact E].
    rewrite lookup_delete_ne; [exact Hk0|]. intros ->. lia.
  - intros k' Hk'. apply Hmax.
    rewrite lookup_delete in Hk'. case_decide; [destruct Hk'; discriminate | exact Hk'].
Qed.

Lemma max_ordinal_nonempty d n : max_ordinal d n → d ≠ ∅.
Proof.
  intros [(k & Hk & _) _] ->. rewrite lookup_empty in Hk. destruct Hk; discriminate.
Qed.

Lemma well_keyed_delete d k : well_keyed d → well_keyed (delete k d).
Proof.
  intros H k' Hk'. apply H. rewrite lookup_delete in Hk'.
  case_decide; [destruct Hk'; discriminate | exact Hk'].
Qed.

Lemma singleton_well_keyed k (r : patient_data) :
  is_patient_id k = true → well_keyed {[k := r]}.
Proof.
  intros Hk k' [x H]. apply lookup_singleton_Some in H as [<- _]. exact Hk.
Qed.

Lemma singleton_max_ordinal k (r : patient_data) : max_ordinal {[k := r]} (ordinal k).
Proof.
  split.
  - exists k. split; [|reflexivity]. rewrite lookup_singleton_eq. eexists; reflexivity.
  - intros k' [x H]. apply lookup_singleton_Some in H as [<- _]. lia.
Qed.

(** A create on a collection whose keys are identifiers. *)
Lemma add_patient_next file d n patient :
  collection file = Some d → well_keyed d → max_ordinal d n →
  ¬ (Patient.height patient == 0)%Q →
  ∃ r, add_patient patient file
       = (inr (PatientAdded (patient_id_of (n + 1)) r),
          Document (<[patient_id_of (n + 1) := r]> d)).
Proof.
  intros Hc Hkeys Hmax Hnz.
  destruct (generate_patient_id_next d (max_ordinal_nonempty _ _ Hmax) Hkeys)
    as (n' & Hmax' & Hgen).
  rewrite (max_ordinal_unique _ _ _ Hmax' Hmax) in Hgen.
  rewrite (add_patient_run _ _ _ Hc), Hgen, (calculate_bmi_nonzero _ _ Hnz).
  cbv zeta. eexists. reflexivity.
Qed.

Lemma length_zeros_append k s :
  String.length (Py.zeros k ++ s) = (k + String.length s)%nat.
Proof. induction k; [reflexivity|]. simpl. rewrite IHk. reflexivity. Qed.

(** The format of an identifier: ['P'], then digits that denote the ordinal,
    three of them or as many as the numeral of the ordinal has. *)
Lemma patient_id_of_format n :
  ∃ s, patient_id_of n = String "P" s ∧
       all_digits s = true ∧
       numeral_value s = n ∧
       String.length s = Nat.max 3 (String.length (decimal n)).
Proof.
  exists (zero_padded 3 n). split; [reflexivity|].
  split; [apply zero_padded_digits|]. split; [apply zero_padded_value|].
  unfold zero_padded. rewrite length_zeros_append. lia.
Qed.

(** C3. For a collection whose keys all are ['P' followed by digits], a
    create assigns the identifier ['P' followed by the numeral of n + 1,
    with zeros in front up to three digits], where [n] is the largest
    numeric suffix among the keys (the digits after 'P' denote [n + 1] and
    are three or, for a longer numeral, as many as the numeral has); for the
    empty collection it assigns P001.  So the records created one after the other from the empty
    collection get P001, P002, ... in order (a create with height zero
    raises, stores nothing and uses up no identifier); and after a key whose suffix is
    below the largest is deleted, the next create still assigns the
    identifier of [n + 1], which is neither the deleted key nor a key of the
    collection. *)
Theorem next_patient_id :
  (∀ n, ∃ s, patient_id_of n = String "P" s ∧
             all_digits s = true ∧
             numeral_value s = n ∧
             String.length s = Nat.max 3 (String.length (decimal n))) ∧
  generate_patient_id ∅ = inr "P001" ∧
  (∀ file patient,
     collection file = Some ∅ → ¬ (Patient.height patient == 0)%Q →
     ∃ r, add_patient patient file
          = (inr (PatientAdded "P001" r), Document (<["P001" := r]> ∅))) ∧
  (∀ file d patient,
     collection file = Some d → d ≠ ∅ → well_keyed d →
     ∃ n, max_ordinal d n ∧
       generate_patient_id d = inr (String "P" (zero_padded 3 (n + 1))) ∧
       (¬ (Patient.height patient == 0)%Q →
        ∃ r, add_patient patient file
             = (inr (PatientAdded (patient_id_of (n + 1)) r),
                Document (<[patient_id_of (n + 1) := r]> d)))) ∧
  (∀ file ps,
     collection file = Some ∅ →
     added_ids (serve (Create <$> ps) file).1
       = consecutive_ids 1 (length (filter (λ p, creatable p = true) ps)) ∧
     (Forall (λ p, ¬ (Patient.height p == 0)%Q) ps →
      added_ids (serve (Create <$> ps) file).1 = consecutive_ids 1 (length ps))) ∧
  (∀ file d n k patient,
     collection file = Some d → well_keyed d → max_ordinal d n →
     is_Some (d !! k) → (ordinal k < n)%N →
     ¬ (Patient.height patient == 0)%Q →
     ∃ old file1 r file2,
       delete_patient k file = (inr (PatientDeleted k old), file1) ∧
       add_patient patient file1
         = (inr (PatientAdded (patient_id_of (n + 1)) r), file2) ∧
       patient_id_of (n + 1) ≠ k ∧
       d !! patient_id_of (n + 1) = None).
Proof.
  split; [exact patient_id_of_format|].
  split; [reflexivity|]. split; [|split; [|split]].
  - intros file patient Hc Hnz.
    rewrite (add_patient_run _ _ _ Hc), (calculate_bmi_nonzero _ _ Hnz).
    cbn. eexists. reflexivity.
  - intros file d patient Hc Hne Hkeys.
    destruct (generate_patient_id_next d Hne Hkeys) as (n & Hmax & Hgen).
    exists n. split; [exact Hmax|]. split; [exact Hgen|].
    intros Hnz. apply add_patient_next; assumption.
  - intros file ps Hc.
    assert (Hrun : added_ids (serve (Create <$> ps) file).1
                   = consecutive_ids 1 (length (filter (λ p, creatable p = true) ps))).
    { apply (serve_creates ps 0 file ∅ Hc).
      intros key. rewrite lookup_empty. split.
      - intros [x [=]].
      - intros (i & Hi & _). lia. }
    split; [exact Hrun|].
    intros Hall. rewrite Hrun, (filter_creatable _ Hall). reflexivity.
  - intros file d n k patient Hc Hkeys Hmax [old Hold] Hlt Hnz.
    rewrite (delete_patient_run _ _ _ Hc), Hold.
    destruct (add_patient_next (Document (delete k d)) (delete k d) n patient eq_refl
                (well_keyed_delete _ k Hkeys) (max_ordinal_delete _ _ _ Hmax Hlt) Hnz)
      as [r Hadd].
    eexists old, _, r, _. split; [reflexivity|]. split; [exact Hadd|].
    split; [|apply max_ordinal_absent, Hmax].
    intros E. rewrite <- E, ordinal_patient_id_of in Hlt. lia.
Qed.

Lemma next_patient_id_after_alice :
  generate_patient_id {["P001" := alice_record]} = inr "P002".
Proof.
  destruct (proj1 (proj2 (proj2 (proj2 next_patient_id))) one_patient
              {["P001" := alice_record]} bob one_patient_collection)
    as (n & Hmax & Hgen & _).
  - apply (max_ordinal_nonempty _ 1), (singleton_max_ordinal "P001").
  - apply singleton_well_keyed. reflexivity.
  - rewrite Hgen.
    rewrite (max_ordinal_unique _ _ _ Hmax (singleton_max_ordinal "P001" alice_record)).
    reflexivity.
Defined.

(** ** Consistency of the derived fields *)

Lemma get_patient_statistics_file file : (get_patient_statistics file).2 = file.
Proof.
  destruct (collection file) as [d|] eqn:Hc.
  2: { pose proof (handle_undecodable Stats _ Hc) as E. simpl in E.
       rewrite E. reflexivity. }
  run_handler. rewrite (load_data_collection _ _ Hc).
  destruct (decide _); [reflexivity|].
  destruct (Float.truediv _ _); [reflexivity|].
  destruct (Py.min _); [reflexivity|].
  destruct (Py.max _); [reflexivity|].
  destruct (Float.div _ _); [reflexivity|].
  destruct (Float.min _); [reflexivity|].
  destruct (Float.max _); reflexivity.
Qed.






(** ** Missing identifiers *)

(** C5. Reading, updating and deleting raise the 404 "Patient not found"
    exactly when the identifier is not a key of the loaded collection, and
    then the file is the one the handler found (nothing is written).  After
    an existing identifier is deleted, reading it raises the same error. *)
Theorem not_found_iff_absent file d patient_id patient_update :
  collection file = Some d →
  ((get_patient patient_id file).1 = inl not_found ↔ d !! patient_id = None) ∧
  ((update_patient patient_id patient_update file).1 = inl not_found
     ↔ d !! patient_id = None) ∧
  ((delete_patient patient_id file).1 = inl not_found ↔ d !! patient_id = None) ∧
  (d !! patient_id = None →
     get_patient patient_id file = (inl not_found, file) ∧
     update_patient patient_id patient_update file = (inl not_found, file) ∧
     delete_patient patient_id file = (inl not_found, file)) ∧
  (∀ r, d !! patient_id = Some r →
     ∃ file',
       delete_patient patient_id file = (inr (PatientDeleted patient_id r), file') ∧
       collection file' = Some (delete patient_id d) ∧
       get_patient patient_id file' = (inl not_found, file')).
Proof.
  intros Hc.
  rewrite (get_patient_run _ _ _ Hc), (update_patient_run _ _ _ _ Hc),
    (delete_patient_run _ _ _ Hc).
  destruct (d !! patient_id) as [old|] eqn:Hold; cbv zeta.
  - split; [split; intros H; simpl in H; discriminate H|].
    split.
    { destruct (touches_bmi _);
        [destruct (Qeq_dec (height (apply_update patient_update old)) 0) as [Hz|Hz];
         [rewrite (calculate_bmi_zero _ _ Hz) | rewrite (calculate_bmi_nonzero _ _ Hz)]|];
        split; intros H; simpl in H; discriminate H. }
    split; [split; intros H; simpl in H; discriminate H|].
    split; [discriminate|].
    intros r [= <-]. eexists. split; [reflexivity|]. split; [reflexivity|].
    rewrite (get_patient_run _ (delete patient_id d)) by reflexivity.
    rewrite lookup_delete_eq. reflexivity.
  - repeat split; try reflexivity. discriminate.
Qed.

Lemma not_found_iff_absent_alice :
  (get_patient "P007" one_patient).1 = inl not_found ∧
  delete_patient "P007" one_patient = (inl not_found, one_patient) ∧
  ∃ file',
    delete_patient "P001" one_patient = (inr (PatientDeleted "P001" alice_record), file') ∧
    get_patient "P001" file' = (inl not_found, file').
Proof.
  split; [|split].
  - apply (proj1 (not_found_iff_absent one_patient _ "P007" (only_weight 1)
                    one_patient_collection)).
    reflexivity.
  - apply (not_found_iff_absent one_patient _ "P007" (only_weight 1)
             one_patient_collection).
    reflexivity.
  - destruct (not_found_iff_absent one_patient _ "P001" (only_weight 1)
                one_patient_collection) as (_ & _ & _ & _ & H).
    destruct (H alice_record) as (file' & Hd & _ & Hg); [reflexivity|].
    exists file'. split; assumption.
Defined.

(** ** Statistics *)










Lemma length_records (d : patients) : length (records d) = size d.
Proof. unfold records. rewrite length_fmap. apply length_map_to_list. Qed.



Lemma values_nonempty (d : patients) : d ≠ ∅ → ∃ r0 rest, values d = r0 :: rest.
Proof.
  intros Hne. unfold values. destruct (map_to_list d) as [|[k r] l] eqn:E.
  - apply map_to_list_empty_iff in E. contradiction.
  - exists r, l.*2. reflexivity.
Qed.

Lemma float_div_count (x : Q) (n : nat) :
  Float.div x (inject_Z (Z.of_nat (S n))) = inr (x / inject_Z (Z.of_nat (S n)))%Q.
Proof. reflexivity. Qed.

Lemma truediv_count (a : Z) (n : nat) :
  Float.truediv a (Z.of_nat (S n)) = inr (inject_Z a / inject_Z (Z.of_nat (S n)))%Q.
Proof. reflexivity. Qed.

(** The statistics of a collection that is not empty. *)
Lemma get_patient_statistics_run file d :
  collection file = Some d → d ≠ ∅ →
  ∃ r0 rest,
    values d = r0 :: rest ∧
    get_patient_statistics file
    = (inr (Statistics {|
         total_patients := Z.of_nat (size d);
         age_stats := {|
           average_age :=
             Float.round (inject_Z (Py.sum (age <$> values d))
                          / inject_Z (Z.of_nat (length (values d)))) 1;
           min_age := fold_left Z.min (age <$> rest) (age r0);
           max_age := fold_left Z.max (age <$> rest) (age r0) |};
         bmi_stats := {|
           average_bmi :=
             Float.round (Float.sum (bmi <$> values d)
                          / inject_Z (Z.of_nat (length (values d)))) 2;
           min_bmi := fold_left (λ m y, if Float.lt y m then y else m)
                        (bmi <$> rest) (bmi r0);
           max_bmi := fold_left (λ m y, if Float.lt m y then y else m)
                        (bmi <$> rest) (bmi r0) |};
         gender_distribution := distribution gender (values d);
         city_distribution := distribution city (values d);
         bmi_verdict_distribution := distribution verdict (values d) |}),
       file).
Proof.
  intros Hc Hne. destruct (values_nonempty d Hne) as (r0 & rest & Hv).
  exists r0, rest. split; [exact Hv|].
  run_handler. rewrite (load_data_collection _ _ Hc).
  destruct (decide (d = ∅)); [contradiction|].
  rewrite !length_fmap, Hv. cbn [length fmap list_fmap].
  rewrite truediv_count, float_div_count. reflexivity.
Qed.





(** ** Statistics of the empty collection *)

(** C7. On an empty collection the statistics handler returns the "no
    patients" message, not an error; on every file it never raises
    [ZeroDivisionError] (nor the [ValueError] of [min] and [max] on an empty
    list): the means are computed only once the collection is known not to
    be empty, and then the handler returns statistics. *)
Theorem statistics_of_empty_collection file :
  (collection file = Some ∅ →
     get_patient_statistics file = (inr NoStatistics, file)) ∧
  (get_patient_statistics file).1 ≠ inl ZeroDivisionError ∧
  (get_patient_statistics file).1 ≠ inl ValueError ∧
  (∀ d, collection file = Some d → d ≠ ∅ →
     ∃ s, get_patient_statistics file = (inr (Statistics s), file)).
Proof.
  split; [|split; [|split]].
  - intros Hc. run_handler. rewrite (load_data_collection _ _ Hc). reflexivity.
  - destruct (collection file) as [d|] eqn:Hc.
    + destruct (decide (d = ∅)) as [-> | Hne].
      * run_handler. rewrite (load_data_collection _ _ Hc). discriminate.
      * destruct (get_patient_statistics_run _ _ Hc Hne) as (? & ? & _ & ->).
        discriminate.
    + pose proof (handle_undecodable Stats _ Hc) as E. simpl in E. rewrite E.
      discriminate.
  - destruct (collection file) as [d|] eqn:Hc.
    + destruct (decide (d = ∅)) as [-> | Hne].
      * run_handler. rewrite (load_data_collection _ _ Hc). discriminate.
      * destruct (get_patient_statistics_run _ _ Hc Hne) as (? & ? & _ & ->).
        discriminate.
    + pose proof (handle_undecodable Stats _ Hc) as E. simpl in E. rewrite E.
      discriminate.
  - intros d Hc Hne.
    destruct (get_patient_statistics_run _ _ Hc Hne) as (? & ? & _ & ->).
    eexists. reflexivity.
Qed.

Lemma statistics_of_no_file :
  get_patient_statistics FileNotFound = (inr NoStatistics, FileNotFound).
Proof.
  apply (proj1 (statistics_of_empty_collection FileNotFound)). reflexivity.
Defined.

(** ** Search by city *)

(** C8. The search by city returns the records of the collection whose city,
    in lower case, is the query in lower case, all of them and no other,
    under their identifiers and with their number; when there is none the
    response is the "no patients" message and no error.  A record whose city
    is "Boston" is returned for the queries "boston" and "BOSTON". *)
Theorem find_by_city file d query :
  collection file = Some d →
  ∃ found : patients,
    (∀ patient_id r,
       found !! patient_id = Some r ↔ d !! patient_id = Some r ∧ same_city query r) ∧
    (found = ∅ →
       get_patients_by_city query file = (inr (NoPatientsFoundIn query), file)) ∧
    (found ≠ ∅ →
       get_patients_by_city query file
         = (inr (CityPatients query (Z.of_nat (size found)) found), file)) ∧
    (∀ patient_id r,
       d !! patient_id = Some r → city r = "Boston" →
       query = "boston" ∨ query = "BOSTON" →
       found !! patient_id = Some r ∧
       get_patients_by_city query file
         = (inr (CityPatients query (Z.of_nat (size found)) found), file)).
Proof.
  intros Hc. rewrite (get_patients_by_city_run _ _ _ Hc). cbv zeta.
  set (found := filter (λ kv : string * patient_data,
                          Py.lower (city kv.2) = Py.lower query) d).
  assert (Hfound : ∀ patient_id r,
            found !! patient_id = Some r ↔ d !! patient_id = Some r ∧ same_city query r).
  { intros patient_id r. unfold found. rewrite map_lookup_filter_Some. reflexivity. }
  exists found. split; [exact Hfound|].
  split; [intros ->; reflexivity|].
  split; [intros Hne; destruct (decide (found = ∅)); [contradiction | reflexivity]|].
  intros patient_id r Hr Hcity Hq.
  assert (Hin : found !! patient_id = Some r).
  { apply Hfound. split; [exact Hr|]. unfold same_city. rewrite Hcity.
    destruct Hq as [-> | ->]; reflexivity. }
  split; [exact Hin|].
  destruct (decide (found = ∅)) as [He|]; [|reflexivity].
  rewrite He, lookup_empty in Hin. discriminate.
Qed.

Lemma find_by_city_alice :
  ∃ found : patients,
    found !! "P001" = Some alice_record ∧
    get_patients_by_city "BOSTON" one_patient
      = (inr (CityPatients "BOSTON" (Z.of_nat (size found)) found), one_patient).
Proof.
  destruct (find_by_city one_patient _ "BOSTON" one_patient_collection)
    as (found & _ & _ & _ & H).
  exists found. apply (H "P001" alice_record); [reflexivity | reflexivity | right; reflexivity].
Defined.

(** ** Derived fields in a create request *)

Lemma add_patient_undecodable patient file :
  collection file = None →
  add_patient patient file
    = (inl (HTTPException 500 "Error reading patient data"), file).
Proof. exact (handle_undecodable (Create patient) file). Qed.

(** What a successful create has done. *)
Lemma add_patient_added patient file patient_id r file' :
  add_patient patient file = (inr (PatientAdded patient_id r), file') →
  ∃ d,
    collection file = Some d ∧
    generate_patient_id d = inr patient_id ∧
    file' = Document (<[patient_id := r]> d) ∧
    name r = Patient.name patient ∧ city r = Patient.city patient ∧
    age r = Patient.age patient ∧ gender r = Patient.gender patient ∧
    height r = Patient.height patient ∧ weight r = Patient.weight patient ∧
    ¬ (height r == 0)%Q ∧
    bmi r = Float.round (weight r / height r ^ 2) 2 ∧
    verdict r = get_bmi_verdict (bmi r).
Proof.
  destruct (collection file) as [d|] eqn:Hc.
  2: { rewrite (add_patient_undecodable _ _ Hc). discriminate. }
  rewrite (add_patient_run _ _ _ Hc).
  destruct (generate_patient_id d) as [|new_id] eqn:Hid; [discriminate|].
  destruct (calculate_bmi _ _) as [|b] eqn:Hb; [discriminate|].
  cbv zeta. intros [= <- <- <-]. apply calculate_bmi_inr in Hb as [Hnz ->].
  exists d. simpl. repeat split; try reflexivity; assumption.
Qed.

(** C9. A create request gives the record its name, city, age, gender, height
    and weight and nothing else: two requests that agree on these six fields
    have the same outcome (the same response and the same file), whatever
    bmi and verdict either of them carries; the record a create stores and
    returns has the six fields of the request and the bmi and verdict
    computed from its height and weight. *)
Theorem derived_fields_not_accepted file p1 p2 :
  Patient.name p1 = Patient.name p2 →
  Patient.city p1 = Patient.city p2 →
  Patient.age p1 = Patient.age p2 →
  Patient.gender p1 = Patient.gender p2 →
  Patient.height p1 = Patient.height p2 →
  Patient.weight p1 = Patient.weight p2 →
  add_patient p1 file = add_patient p2 file ∧
  (∀ patient_id r file',
     add_patient p1 file = (inr (PatientAdded patient_id r), file') →
     (∃ d, collection file = Some d ∧ file' = Document (<[patient_id := r]> d)) ∧
     name r = Patient.name p1 ∧ city r = Patient.city p1 ∧
     age r = Patient.age p1 ∧ gender r = Patient.gender p1 ∧
     height r = Patient.height p1 ∧ weight r = Patient.weight p1 ∧
     bmi r = Float.round (Patient.weight p1 / Patient.height p1 ^ 2) 2 ∧
     classified (bmi r) (verdict r)).
Proof.
  intros Hn Hc Ha Hg Hh Hw. split.
  - destruct (collection file) as [d|] eqn:Hd.
    + rewrite !(add_patient_run _ _ _ Hd), Hn, Hc, Ha, Hg, Hh, Hw. reflexivity.
    + rewrite !(add_patient_undecodable _ _ Hd). reflexivity.
  - intros patient_id r file' Hadd.
    apply add_patient_added in Hadd
      as (d & Hd & _ & -> & En & Ec & Ea & Eg & Eh & Ew & _ & Eb & Ev).
    split; [exists d; split; [exact Hd | reflexivity]|].
    repeat (split; [assumption|]).
    split; [rewrite <- Eh, <- Ew; exact Eb|].
    rewrite Ev. apply get_bmi_verdict_classified.
Qed.

Lemma derived_fields_not_accepted_alice :
  add_patient alice FileNotFound = add_patient alice_with_derived FileNotFound.
Proof.
  apply (derived_fields_not_accepted FileNotFound alice alice_with_derived);
    reflexivity.
Defined.

(** ** Identifiers past P999 *)

(** A number of at least [10 ^ k] has more than [k] digits. *)
Lemma decimal_length n k :
  (10 ^ N.of_nat k ≤ n)%N → (k < String.length (decimal n))%nat.
Proof.
  intros H. pose proof (numeral_value_bound _ (decimal_digits n)) as Hb.
  rewrite decimal_value in Hb.
  assert (Hlt : (10 ^ N.of_nat k < 10 ^ N.of_nat (String.length (decimal n)))%N) by lia.
  apply N.pow_lt_mono_r_iff in Hlt; lia.
Qed.

Lemma zero_padded_wide width n :
  (width ≤ String.length (decimal n))%nat → zero_padded width n = decimal n.
Proof.
  intros H. unfold zero_padded.
  replace (width - String.length (decimal n))%nat with 0%nat by lia. reflexivity.
Qed.

(** C10. For a collection whose keys are identifiers and whose largest
    ordinal [n] is at least 999, a create assigns ['P' followed by the
    decimal numeral of n + 1]: the numeral is complete (it denotes [n + 1]
    and has at least four digits), so after P999 comes P1000; the
    identifier is not a key of the collection, and the create adds a record
    without replacing one. *)
Theorem ids_past_999 file d n patient :
  collection file = Some d → well_keyed d → max_ordinal d n → (999 ≤ n)%N →
  generate_patient_id d = inr (String "P" (decimal (n + 1))) ∧
  numeral_value (decimal (n + 1)) = (n + 1)%N ∧
  (4 ≤ String.length (decimal (n + 1)))%nat ∧
  d !! String "P" (decimal (n + 1)) = None ∧
  (n = 999%N → generate_patient_id d = inr "P1000") ∧
  (¬ (Patient.height patient == 0)%Q →
   ∃ r, add_patient patient file
        = (inr (PatientAdded (String "P" (decimal (n + 1))) r),
           Document (<[String "P" (decimal (n + 1)) := r]> d)) ∧
        size (<[String "P" (decimal (n + 1)) := r]> d) = S (size d)).
Proof.
  intros Hc Hkeys Hmax Hn.
  assert (Hlen : (3 < String.length (decimal (n + 1)))%nat).
  { apply decimal_length. change (10 ^ N.of_nat 3)%N with 1000%N. lia. }
  assert (Hid : patient_id_of (n + 1) = String "P" (decimal (n + 1))).
  { unfold patient_id_of. rewrite zero_padded_wide by lia. reflexivity. }
  assert (Hnew : d !! String "P" (decimal (n + 1)) = None).
  { rewrite <- Hid. apply max_ordinal_absent, Hmax. }
  assert (Hgen : generate_patient_id d = inr (String "P" (decimal (n + 1)))).
  { destruct (generate_patient_id_next d (max_ordinal_nonempty _ _ Hmax) Hkeys)
      as (n' & Hmax' & Hgen).
    rewrite (max_ordinal_unique _ _ _ Hmax' Hmax), Hid in Hgen. exact Hgen. }
  split; [exact Hgen|]. split; [apply decimal_value|]. split; [lia|].
  split; [exact Hnew|]. split.
  - intros ->. exact Hgen.
  - intros Hnz. destruct (add_patient_next _ _ _ patient Hc Hkeys Hmax Hnz) as [r Hr].
    rewrite Hid in Hr. exists r. split; [exact Hr|].
    apply map_size_insert_None, Hnew.
Qed.

Lemma ids_past_999_after_P999 :
  generate_patient_id {["P999" := alice_record]} = inr "P1000".
Proof.
  apply (ids_past_999 (Document {["P999" := alice_record]})
           {["P999" := alice_record]} 999 alice).
  - reflexivity.
  - apply singleton_well_keyed. reflexivity.
  - apply (singleton_max_ordinal "P999").
  - reflexivity.
  - reflexivity.
Defined.

(** ** Identifiers read back *)

Lemma digits_all_digits t :
  all_digits t = true → t ≠ EmptyString →
  Py.digits 0 false t = Some (numeral_value t).
Proof.
  intros Hall Hne. destruct t as [|c s]; [contradiction|].
  pose proof Hall as H. simpl in H. apply andb_true_iff in H as [Hc _].
  destruct (all_digits_uint _ Hall) as (u & Hu & Hsu).
  assert (E : Py.digits 0 false (String c s) = Py.digits 0 true (String c s)).
  { cbn [Py.digits]. rewrite Hc. reflexivity. }
  unfold numeral_value. rewrite Hu, E, <- Hsu. apply digits_numeral.
Qed.

Lemma rstrip_app_digits s t :
  all_digits t = true → t ≠ EmptyString → Py.rstrip (s ++ t) = s ++ t.
Proof.
  intros Hall Hne. induction s as [|c s IH]; [apply rstrip_digits, Hall|].
  change (String c s +:+ t) with (String c (s +:+ t)).
  cbn [Py.rstrip]. rewrite IH.
  destruct (s ++ t) eqn:E; [|reflexivity].
  destruct s; [simpl in E; contradiction | discriminate E].
Qed.

Lemma str_negative p : Py.str (Z.neg p) = String "-" (decimal (N.pos p)).
Proof.
  unfold Py.str, decimal. cbn [Z.to_int N.to_uint NilZero.string_of_int]. reflexivity.
Qed.

(** [int(str(z).zfill(width)) == z] *)
Lemma int_zfill_str z width : Py.int (Py.zfill width (Py.str z)) = inr z.
Proof.
  destruct z as [|p|p].
  - change 0 with (Z.of_N 0). rewrite str_decimal, zfill_decimal.
    rewrite int_digits; [rewrite zero_padded_value; reflexivity
                        | apply zero_padded_digits | apply zero_padded_nonempty].
  - change (Z.pos p) with (Z.of_N (N.pos p)). rewrite str_decimal, zfill_decimal.
    rewrite int_digits; [rewrite zero_padded_value; reflexivity
                        | apply zero_padded_digits | apply zero_padded_nonempty].
  - rewrite str_negative. unfold Py.zfill.
    change ((Py.code "-" =? 43)%N || (Py.code "-" =? 45)%N) with true. cbv iota.
    set (fill := Py.zeros _).
    unfold Py.int. cbv zeta. cbn [Py.lstrip].
    change (Py.is_space "-") with false. cbv iota.
    change (String "-" (fill +:+ decimal (N.pos p)))
      with ((String "-" fill) +:+ decimal (N.pos p)).
    rewrite rstrip_app_digits by (apply decimal_digits || apply decimal_nonempty).
    change (String "-" fill +:+ decimal (N.pos p))
      with (String "-" (fill +:+ decimal (N.pos p))).
    cbv iota. change (Py.code "-" =? 45)%N with true. cbv iota. cbn [fst snd].
    subst fill. rewrite digits_all_digits.
    + rewrite numeral_value_zeros, decimal_value. reflexivity.
    + rewrite all_digits_zeros. apply decimal_digits.
    + pose proof (decimal_nonempty (N.pos p)).
      destruct (Py.zeros _); [assumption | discriminate].
Qed.

(** ** What [generate_patient_id] returns on any collection *)

Lemma result_map_inr {A B} (f : A → result B) (l : list A) ys :
  result_map f l = inr ys → Forall2 (λ x y, f x = inr y) l ys.
Proof.
  revert ys. induction l as [|x l IH]; intros ys; simpl.
  - intros [= <-]. constructor.
  - destruct (f x) as [e|y] eqn:Ex; [discriminate|]. simpl.
    destruct (result_map f l) as [e|ys'] eqn:El; [discriminate|]. simpl.
    intros [= <-]. constructor; [exact Ex | apply IH; reflexivity].
Qed.

Lemma result_map_inl {A B} (f : A → result B) (l : list A) (x : A) (e : exn) :
  (∀ y e', f y = inl e' → e' = e) → x ∈ l → f x = inl e →
  result_map f l = inl e.
Proof.
  intros Honly Hx Hfx. induction l as [|y l IH]; [inversion Hx|].
  simpl. destruct (f y) as [e'|b] eqn:Ey.
  - rewrite (Honly _ _ Ey). reflexivity.
  - simpl. apply elem_of_cons in Hx as [-> | Hx]; [congruence|].
    rewrite (IH Hx). reflexivity.
Qed.

Lemma int_raises_value_error s e : Py.int s = inl e → e = ValueError.
Proof.
  unfold Py.int. cbv zeta. destruct (Py.digits _ _ _); [discriminate|].
  intros [= <-]. reflexivity.
Qed.

(** The identifier generated for a collection that is not empty: every key
    reads as a number, and the identifier is made from the largest of them
    plus one. *)
Lemma generate_patient_id_inr d patient_id :
  d ≠ ∅ → generate_patient_id d = inr patient_id →
  ∃ m,
    (∃ k, is_Some (d !! k) ∧ reads_as k m) ∧
    (∀ k, is_Some (d !! k) → ∃ v, reads_as k v ∧ (v ≤ m)%Z) ∧
    patient_id = String "P" (Py.zfill 3 (Py.str (m + 1))).
Proof.
  intros Hne. unfold generate_patient_id.
  destruct (decide (d = ∅)) as [|_]; [contradiction|].
  destruct (result_map _ (keys d)) as [e|ids] eqn:Emap; [discriminate|].
  apply result_map_inr in Emap.
  cbn [mbind result_mbind result_bind].
  destruct ids as [|v0 vs]; [discriminate|].
  cbn [Py.max mbind result_mbind result_bind mret result_ret].
  intros [= <-]. set (m := fold_left Z.max vs v0).
  exists m. split; [|split; [|reflexivity]].
  - pose proof (fold_max_member vs v0) as Hm. fold m in Hm.
    apply list_elem_of_lookup in Hm as [i Hi].
    destruct (Forall2_lookup_r _ _ _ _ _ Emap Hi) as (k & Hk & Hread).
    exists k. split; [|exact Hread].
    apply elem_of_keys, list_elem_of_lookup. exists i. exact Hk.
  - intros k Hk. apply elem_of_keys, list_elem_of_lookup in Hk as [i Hi].
    destruct (Forall2_lookup_l _ _ _ _ _ Emap Hi) as (v & Hv & Hread).
    exists v. split; [exact Hread|].
    destruct (fold_max_upper vs v0) as [H0 Hrest]. fold m in H0, Hrest.
    apply list_elem_of_lookup_2, elem_of_cons in Hv as [-> | Hv];
      [exact H0 | apply Hrest, Hv].
Qed.

(** The identifier [generate_patient_id] returns is not a key of the
    collection. *)
Lemma generate_patient_id_fresh d patient_id :
  generate_patient_id d = inr patient_id → d !! patient_id = None.
Proof.
  intros Hgen. destruct (decide (d = ∅)) as [-> | Hne]; [apply lookup_empty|].
  destruct (generate_patient_id_inr _ _ Hne Hgen) as (m & _ & Hall & ->).
  apply eq_None_not_Some. intros Hin.
  destruct (Hall _ Hin) as (v & Hread & Hle).
  unfold reads_as in Hread. cbn [Py.tail] in Hread.
  rewrite int_zfill_str in Hread. injection Hread as <-. lia.
Qed.



(** X2. One key that [int] cannot read blocks every create: when the
    collection has a key [k] for which [int(k[1:])] raises, [add_patient]
    raises [ValueError] for every patient and leaves the file as it is. *)
Theorem unreadable_key_blocks_create file d k patient :
  collection file = Some d →
  is_Some (d !! k) →
  Py.int (Py.tail k) = inl ValueError →
  add_patient patient file = (inl ValueError, file).
Proof.
  intros Hc Hk Hint.
  assert (Hne : d ≠ ∅).
  { intros ->. rewrite lookup_empty in Hk. destruct Hk; discriminate. }
  rewrite (add_patient_run _ _ _ Hc). unfold generate_patient_id.
  destruct (decide (d = ∅)); [contradiction|].
  rewrite (result_map_inl _ _ k ValueError); [reflexivity | | | exact Hint].
  - intros y e. apply int_raises_value_error.
  - apply elem_of_keys, Hk.
Qed.

Lemma unreadable_key_blocks_create_stats :
  add_patient alice (Document odd_collection) = (inl ValueError, Document odd_collection).
Proof.
  apply (unreadable_key_blocks_create (Document odd_collection) odd_collection "stats").
  - reflexivity.
  - unfold odd_collection. rewrite lookup_singleton_eq. eexists. reflexivity.
  - reflexivity.
Defined.

(** The requests that read leave the file as they find it. *)
Lemma read_only_file rq file : read_only rq = true → (handle rq file).2 = file.
Proof.
  intros Hro. destruct (collection file) as [d|] eqn:Hc.
  2: { rewrite (handle_undecodable _ _ Hc). reflexivity. }
  destruct rq; try discriminate Hro; simpl.
  - run_handler. rewrite (load_data_collection _ _ Hc).
    destruct (decide _); reflexivity.
  - rewrite (get_patient_run _ _ _ Hc). destruct (d !! _); reflexivity.
  - rewrite (get_patients_by_city_run _ _ _ Hc). cbv zeta.
    destruct (decide _); reflexivity.
  - apply get_patient_statistics_file.
Qed.

(** The keys after a request: the keys before it and, after a create, the
    identifier generated. *)
Lemma handle_keys rq file d :
  collection file = Some d →
  ∃ d', collection (handle rq file).2 = Some d' ∧
    ∀ k, is_Some (d' !! k) → is_Some (d !! k) ∨ generate_patient_id d = inr k.
Proof.
  intros Hc.
  assert (Hsame : ∃ d', collection file = Some d' ∧
            ∀ k, is_Some (d' !! k) → is_Some (d !! k) ∨ generate_patient_id d = inr k).
  { exists d. split; [exact Hc|]. intros k Hk. left. exact Hk. }
  destruct (read_only rq) eqn:Hro.
  { rewrite (read_only_file _ _ Hro). exact Hsame. }
  destruct rq; try discriminate Hro; simpl.
  - rewrite (add_patient_run _ _ _ Hc).
    destruct (generate_patient_id d) as [|new_id] eqn:Hgen; [exact Hsame|].
    destruct (calculate_bmi _ _); [exact Hsame|].
    cbv zeta. eexists. split; [reflexivity|].
    intros k. rewrite lookup_insert. case_decide as Ek.
    + subst k. intros _. right. reflexivity.
    + intros Hk. left. exact Hk.
  - rewrite (update_patient_run _ _ _ _ Hc).
    destruct (d !! patient_id) as [old|] eqn:Hold; [|exact Hsame].
    assert (Hins : ∀ r k, is_Some (<[patient_id := r]> d !! k) → is_Some (d !! k)).
    { intros r k. rewrite lookup_insert. case_decide as Ek; [|tauto].
      subst k. intros _. rewrite Hold. eexists. reflexivity. }
    cbv zeta. destruct (touches_bmi patient_update);
      [destruct (calculate_bmi _ _); [exact Hsame|]|];
      (eexists; split; [reflexivity|]); intros k Hk; left; exact (Hins _ _ Hk).
  - rewrite (delete_patient_run _ _ _ Hc).
    destruct (d !! patient_id); [|exact Hsame].
    eexists. split; [reflexivity|].
    intros k. rewrite lookup_delete. case_decide; [intros [? [=]]|].
    intros Hk. left. exact Hk.
Qed.

Lemma generated_id_next d patient_id :
  (∀ k, is_Some (d !! k) → is_generated_id k = true) →
  generate_patient_id d = inr patient_id →
  is_generated_id patient_id = true.
Proof.
  intros Hkeys Hgen. destruct (decide (d = ∅)) as [-> | Hne].
  { injection Hgen as <-. reflexivity. }
  assert (Hwell : well_keyed d).
  { intros k Hk. apply Hkeys in Hk. apply andb_true_iff in Hk as [Hk _]. exact Hk. }
  destruct (generate_patient_id_next d Hne Hwell) as (n & _ & Hnext).
  rewrite Hnext in Hgen. injection Hgen as <-.
  unfold is_generated_id. apply andb_true_iff.
  split; [apply patient_id_of_is_patient_id|].
  destruct (patient_id_of_format (n + 1)) as (s & E & _ & _ & Hlen).
  rewrite E. apply Nat.leb_le.
  change (String.length (String "P" s)) with (S (String.length s)). lia.
Qed.


Lemma reachable_generated_keys file :
  reachable file →
  ∃ d, collection file = Some d ∧ ∀ k, is_Some (d !! k) → is_generated_id k = true.
Proof.
  intros Hreach.
  induction Hreach as [| |file rq _ (d & Hc & Hkeys)].
  - exists ∅. split; [reflexivity|]. intros k. rewrite lookup_empty. intros [? [=]].
  - exists ∅. split; [reflexivity|]. intros k. rewrite lookup_empty. intros [? [=]].
  - destruct (handle_keys rq _ _ Hc) as (d' & Hc' & Hsub).
    exists d'. split; [exact Hc'|]. intros k Hk.
    destruct (Hsub k Hk) as [Hold | Hnew];
      [apply Hkeys, Hold | apply (generated_id_next d); assumption].
Qed.



(** ** Failures and effects of the requests *)





(** X5. Listing, reading one record, searching by city, the statistics and
    the legacy view never write: whatever they return or raise, the file
    after them is the file before them; a file that does not exist is not
    created, and the view returns the collection that listing returns. *)
Theorem reads_never_write rq file :
  (read_only rq = true → (handle rq file).2 = file) ∧
  (view file).2 = file ∧
  (∀ d, collection file = Some d →
     view file = (inr d, file) ∧
     get_all_patients file
       = (inr (if decide (d = ∅) then NoPatientsFound
               else AllPatients (Z.of_nat (size d)) d), file)).
Proof.
  split; [apply read_only_file|]. split.
  - destruct file; reflexivity.
  - intros d Hc. split.
    + unfold view. apply load_data_collection, Hc.
    + run_handler. rewrite (load_data_collection _ _ Hc).
      destruct (decide _); reflexivity.
Qed.

(** X6. With a file that cannot be decoded every handler raises the 500
    "Error reading patient data" and the file stays as it is: no request,
    not even a create, replaces it. *)
Theorem undecodable_file_blocks_all rq :
  handle rq Undecodable
    = (inl (HTTPException 500 "Error reading patient data"), Undecodable) ∧
  view Undecodable
    = (inl (HTTPException 500 "Error reading patient data"), Undecodable) ∧
  ∀ rqs, (serve rqs Undecodable).2 = Undecodable.
Proof.
  split; [apply handle_undecodable; reflexivity|]. split; [reflexivity|].
  induction rqs as [|rq' rqs IH]; [reflexivity|].
  cbn [serve]. rewrite (handle_undecodable rq' Undecodable eq_refl).
  destruct (serve rqs Undecodable) as [rs file'']. simpl in IH |- *. exact IH.
Qed.

(** What a successful update has done. *)
Lemma update_patient_updated patient_id patient_update file pid r file' :
  update_patient patient_id patient_update file = (inr (PatientUpdated pid r), file') →
  ∃ d old,
    collection file = Some d ∧ d !! patient_id = Some old ∧
    pid = patient_id ∧ file' = Document (<[patient_id := r]> d).
Proof.
  destruct (collection file) as [d|] eqn:Hc.
  2: { pose proof (handle_undecodable (Update patient_id patient_update) _ Hc) as E.
       simpl in E. rewrite E. discriminate. }
  rewrite (update_patient_run _ _ _ _ Hc).
  destruct (d !! patient_id) as [old|] eqn:Hold; [|discriminate].
  cbv zeta. destruct (touches_bmi _); [destruct (calculate_bmi _ _); [discriminate|]|];
    intros [= <- <- <-]; exists d, old; repeat split; assumption.
Qed.

(** X7. What a create or an update returns is what a read returns next: when
    [add_patient] or [update_patient] answers with an identifier and a
    record, [get_patient] on that identifier, on the file they leave,
    answers with the same record, and leaves the file. *)
Theorem read_your_writes rq file resp file' patient_id r :
  handle rq file = (inr resp, file') →
  resp = PatientAdded patient_id r ∨ resp = PatientUpdated patient_id r →
  get_patient patient_id file' = (inr (PatientFound patient_id r), file').
Proof.
  intros Hrun Hresp.
  assert (Hfile : ∃ d, file' = Document (<[patient_id := r]> d)).
  { destruct rq; simpl in Hrun.
    - revert Hrun. destruct (collection file) as [d|] eqn:Hc.
      + run_handler. rewrite (load_data_collection _ _ Hc).
        destruct (decide _); intros [= <- _]; destruct Hresp; discriminate.
      + pose proof (handle_undecodable GetAll _ Hc) as E. simpl in E.
        rewrite E. discriminate.
    - destruct (collection file) as [d|] eqn:Hc.
      + rewrite (get_patient_run _ _ _ Hc) in Hrun.
        destruct (d !! _); [|discriminate].
        injection Hrun as <- _. destruct Hresp; discriminate.
      + pose proof (handle_undecodable (Get patient_id0) _ Hc) as E. simpl in E.
        rewrite E in Hrun. discriminate.
    - destruct Hresp as [-> | ->].
      + apply add_patient_added in Hrun as (d & _ & _ & -> & _). eauto.
      + destruct (collection file) as [d|] eqn:Hc.
        * rewrite (add_patient_run _ _ _ Hc) in Hrun.
          destruct (generate_patient_id d); [discriminate|].
          destruct (calculate_bmi _ _); discriminate.
        * rewrite (add_patient_undecodable _ _ Hc) in Hrun. discriminate.
    - destruct Hresp as [-> | ->].
      + destruct (collection file) as [d|] eqn:Hc.
        * rewrite (update_patient_run _ _ _ _ Hc) in Hrun.
          destruct (d !! _); [|discriminate]. cbv zeta in Hrun.
          destruct (touches_bmi _); [destruct (calculate_bmi _ _)|]; discriminate.
        * pose proof (handle_undecodable (Update patient_id0 patient_update) _ Hc) as E.
          simpl in E. rewrite E in Hrun. discriminate.
      + apply update_patient_updated in Hrun as (d & old & _ & _ & -> & ->). eauto.
    - destruct (collection file) as [d|] eqn:Hc.
      + rewrite (delete_patient_run _ _ _ Hc) in Hrun.
        destruct (d !! _); [|discriminate].
        injection Hrun as <- _. destruct Hresp; discriminate.
      + pose proof (handle_undecodable (Delete patient_id0) _ Hc) as E. simpl in E.
        rewrite E in Hrun. discriminate.
    - destruct (collection file) as [d|] eqn:Hc.
      + rewrite (get_patients_by_city_run _ _ _ Hc) in Hrun. cbv zeta in Hrun.
        destruct (decide _); injection Hrun as <- _; destruct Hresp; discriminate.
      + pose proof (handle_undecodable (ByCity city_name) _ Hc) as E. simpl in E.
        rewrite E in Hrun. discriminate.
    - destruct (collection file) as [d|] eqn:Hc.
      + destruct (decide (d = ∅)) as [-> | Hne].
        * revert Hrun. run_handler. rewrite (load_data_collection _ _ Hc).
          intros [= <- _]. destruct Hresp; discriminate.
        * destruct (get_patient_statistics_run _ _ Hc Hne) as (? & ? & _ & E).
          rewrite E in Hrun. injection Hrun as <- _. destruct Hresp; discriminate.
      + pose proof (handle_undecodable Stats _ Hc) as E. simpl in E.
        rewrite E in Hrun. discriminate. }
  destruct Hfile as [d ->].
  rewrite (get_patient_run _ (<[patient_id := r]> d)) by reflexivity.
  rewrite lookup_insert_eq. reflexivity.
Qed.

Lemma read_your_writes_alice :
  get_patient "P001" one_patient = (inr (PatientFound "P001" alice_record), one_patient).
Proof.
  apply (read_your_writes (Create alice) FileNotFound
           (PatientAdded "P001" alice_record) one_patient "P001" alice_record).
  - vm_compute. reflexivity.
  - left. reflexivity.
Defined.

(** What a request that succeeds has done to the collection. *)
Lemma handle_success rq file d resp file' :
  collection file = Some d →
  handle rq file = (inr resp, file') →
  (read_only rq = true ∧ file' = file)
  ∨ (∃ patient pid r,
       rq = Create patient ∧ resp = PatientAdded pid r ∧
       d !! pid = None ∧ file' = Document (<[pid := r]> d))
  ∨ (∃ pid patient_update old r,
       rq = Update pid patient_update ∧ resp = PatientUpdated pid r ∧
       d !! pid = Some old ∧ file' = Document (<[pid := r]> d))
  ∨ (∃ pid old,
       rq = Delete pid ∧ resp = PatientDeleted pid old ∧
       d !! pid = Some old ∧ file' = Document (delete pid d)).
Proof.
  intros Hc Hrun.
  destruct (read_only rq) eqn:Hro.
  { left. split; [reflexivity|].
    rewrite <- (read_only_file rq file Hro), Hrun. reflexivity. }
  right. destruct rq; try discriminate Hro; simpl in Hrun.
  - left. rewrite (add_patient_run _ _ _ Hc) in Hrun.
    destruct (generate_patient_id d) as [|pid] eqn:Hgen; [discriminate|].
    destruct (calculate_bmi _ _); [discriminate|].
    cbv zeta in Hrun. injection Hrun as <- <-.
    eexists _, _, _. repeat split. apply generate_patient_id_fresh, Hgen.
  - right; left. rewrite (update_patient_run _ _ _ _ Hc) in Hrun.
    destruct (d !! patient_id) as [old|] eqn:Hold; [|discriminate].
    cbv zeta in Hrun.
    destruct (touches_bmi _); [destruct (calculate_bmi _ _); [discriminate|]|];
      injection Hrun as <- <-; eexists _, _, _, _; repeat split; exact Hold.
  - right; right. rewrite (delete_patient_run _ _ _ Hc) in Hrun.
    destruct (d !! patient_id) as [old|] eqn:Hold; [|discriminate].
    injection Hrun as <- <-. eexists _, _. repeat split. exact Hold.
Qed.

(** X8. The number of records after a request that succeeds: one more after
    a create, one less after a delete, the same after every other request;
    listing the patients on the file the request leaves reports that number
    with the records, or the "no patients" message when none is left. *)
Theorem record_count rq file d resp file' :
  collection file = Some d →
  handle rq file = (inr resp, file') →
  ∃ d',
    collection file' = Some d' ∧
    Z.of_nat (size d') = Z.of_nat (size d) + size_change rq ∧
    get_all_patients file'
      = (inr (if decide (d' = ∅) then NoPatientsFound
              else AllPatients (Z.of_nat (size d')) d'), file').
Proof.
  intros Hc Hrun.
  assert (Hlist : ∀ f d', collection f = Some d' →
            get_all_patients f
              = (inr (if decide (d' = ∅) then NoPatientsFound
                      else AllPatients (Z.of_nat (size d')) d'), f)).
  { intros f d' Hf. run_handler. rewrite (load_data_collection _ _ Hf).
    destruct (decide _); reflexivity. }
  destruct (handle_success _ _ _ _ _ Hc Hrun)
    as [[Hro ->] | [(p & pid & r & -> & _ & Hnew & ->)
       | [(pid & u & old & r & -> & _ & Hold & ->)
       | (pid & old & -> & _ & Hold & ->)]]].
  - exists d. split; [exact Hc|]. split; [|apply Hlist, Hc].
    destruct rq; try discriminate Hro; simpl; lia.
  - eexists. split; [reflexivity|]. split; [|apply Hlist; reflexivity].
    rewrite (map_size_insert_None _ _ _ Hnew). simpl. lia.
  - eexists. split; [reflexivity|]. split; [|apply Hlist; reflexivity].
    rewrite map_size_insert_Some by (rewrite Hold; eexists; reflexivity). simpl. lia.
  - eexists. split; [reflexivity|]. split; [|apply Hlist; reflexivity].
    assert (Hs : size (delete pid d) = pred (size d))
      by (apply map_size_delete_Some; rewrite Hold; eexists; reflexivity).
    assert (size d ≠ 0%nat).
    { apply map_size_non_empty_iff. intros ->. rewrite lookup_empty in Hold. discriminate. }
    simpl. lia.
Qed.

Lemma record_count_after_alice :
  ∃ d', collection one_patient = Some d' ∧ Z.of_nat (size d') = 1.
Proof.
  destruct (record_count (Create alice) FileNotFound ∅
              (PatientAdded "P001" alice_record) one_patient)
    as (d' & Hc & Hsize & _).
  - reflexivity.
  - vm_compute. reflexivity.
  - exists d'. split; [exact Hc | exact Hsize].
Defined.

(** The answer to a request depends on the file through the collection it
    holds. *)
Lemma handle_collection rq file1 file2 :
  collection file1 = collection file2 →
  (handle rq file1).1 = (handle rq file2).1.
Proof.
  intros Hcol. destruct (collection file2) as [d|] eqn:H2.
  2: { rewrite (handle_undecodable _ _ Hcol), (handle_undecodable _ _ H2). reflexivity. }
  rename Hcol into H1. destruct rq; simpl.
  - run_handler. rewrite (load_data_collection _ _ H1), (load_data_collection _ _ H2).
    destruct (decide _); reflexivity.
  - rewrite (get_patient_run _ _ _ H1), (get_patient_run _ _ _ H2).
    destruct (d !! _); reflexivity.
  - rewrite (add_patient_run _ _ _ H1), (add_patient_run _ _ _ H2).
    destruct (generate_patient_id d); [reflexivity|].
    destruct (calculate_bmi _ _); reflexivity.
  - rewrite (update_patient_run _ _ _ _ H1), (update_patient_run _ _ _ _ H2).
    destruct (d !! _); [|reflexivity]. cbv zeta.
    destruct (touches_bmi _); [destruct (calculate_bmi _ _)|]; reflexivity.
  - rewrite (delete_patient_run _ _ _ H1), (delete_patient_run _ _ _ H2).
    destruct (d !! _); reflexivity.
  - rewrite (get_patients_by_city_run _ _ _ H1), (get_patients_by_city_run _ _ _ H2).
    cbv zeta. destruct (decide _); reflexivity.
  - destruct (decide (d = ∅)) as [-> | Hne].
    + run_handler. rewrite (load_data_collection _ _ H1), (load_data_collection _ _ H2).
      reflexivity.
    + destruct (get_patient_statistics_run _ _ H1 Hne) as (r1 & l1 & E1 & ->).
      destruct (get_patient_statistics_run _ _ H2 Hne) as (r2 & l2 & E2 & ->).
      rewrite E1 in E2. injection E2 as <- <-. reflexivity.
Qed.

(** X9. Deleting the record a create has just added undoes the create:
    the delete returns that record, the collection is the one before the
    create, and every request is answered as it would have been before the
    create; so the next create is given the same identifier again. *)
Theorem delete_undoes_create patient file patient_id r file1 :
  add_patient patient file = (inr (PatientAdded patient_id r), file1) →
  ∃ file2,
    delete_patient patient_id file1 = (inr (PatientDeleted patient_id r), file2) ∧
    collection file2 = collection file ∧
    (∀ rq, (handle rq file2).1 = (handle rq file).1) ∧
    (∀ next,
       ¬ (Patient.height next == 0)%Q →
       ∃ r' file3,
         add_patient next file2 = (inr (PatientAdded patient_id r'), file3)).
Proof.
  intros Hadd.
  apply add_patient_added in Hadd as (d & Hc & Hgen & -> & _).
  pose proof (generate_patient_id_fresh _ _ Hgen) as Hfresh.
  rewrite (delete_patient_run _ (<[patient_id := r]> d)) by reflexivity.
  rewrite lookup_insert_eq, delete_insert_id by exact Hfresh.
  exists (Document d). split; [reflexivity|].
  assert (Hcol : collection (Document d) = collection file) by (rewrite Hc; reflexivity).
  split; [exact Hcol|]. split; [intros rq; apply handle_collection, Hcol|].
  intros next Hnz. rewrite (add_patient_run _ d) by reflexivity.
  rewrite Hgen, (calculate_bmi_nonzero _ _ Hnz). cbv zeta.
  eexists _, _. reflexivity.
Qed.

Lemma delete_undoes_create_alice :
  ∃ file2,
    delete_patient "P001" one_patient = (inr (PatientDeleted "P001" alice_record), file2) ∧
    collection file2 = collection FileNotFound.
Proof.
  destruct (delete_undoes_create alice FileNotFound "P001" alice_record one_patient)
    as (file2 & Hdel & Hcol & _).
  - vm_compute. reflexivity.
  - exists file2. split; assumption.
Defined.





(** ** Search by city, further *)





(** ** Statistics, further *)

Lemma table_total_insert (t : gmap string Z) k v :
  t !! k = None → table_total (<[k := v]> t) = (v + table_total t)%Z.
Proof.
  intros Hk. unfold table_total.
  rewrite map_fold_insert_L; [reflexivity | intros; lia | exact Hk].
Qed.

Lemma table_total_lookup (t : gmap string Z) k v :
  t !! k = Some v → table_total t = (v + table_total (delete k t))%Z.
Proof.
  intros Hk. unfold table_total.
  rewrite (map_fold_delete_L _ _ k v); [reflexivity | intros; lia | exact Hk].
Qed.

(** One more occurrence of a value adds one to the sum of the counts. *)
Lemma table_total_count (t : gmap string Z) k :
  table_total (<[k := (default 0 (t !! k) + 1)%Z]> t) = (table_total t + 1)%Z.
Proof.
  destruct (t !! k) as [v|] eqn:Hk; cbn [default].
  - rewrite <- (insert_delete_eq t), table_total_insert by apply lookup_delete_eq.
    rewrite (table_total_lookup _ _ _ Hk). unfold id. lia.
  - rewrite table_total_insert by exact Hk. lia.
Qed.

Lemma table_total_distribution field (l : list patient_data) :
  table_total (distribution field l) = Z.of_nat (length l).
Proof.
  unfold distribution.
  enough (H : ∀ t : gmap string Z,
            table_total (fold_left
              (λ stats patient,
                 <[field patient := (default 0 (stats !! field patient) + 1)%Z]> stats)
              l t) = (table_total t + Z.of_nat (length l))%Z).
  { rewrite H. unfold table_total at 1. rewrite map_fold_empty. lia. }
  induction l as [|r l IH]; intros t; cbn [fold_left length]; [lia|].
  rewrite IH, table_total_count. lia.
Qed.

(** X12. In the statistics of a collection that is not empty, the counts of
    each of the three frequency tables (gender, city, verdict) add up to the
    number of patients: every record is counted once in each table. *)
Theorem distributions_add_up file d :
  collection file = Some d → d ≠ ∅ →
  ∃ s,
    get_patient_statistics file = (inr (Statistics s), file) ∧
    table_total (gender_distribution s) = total_patients s ∧
    table_total (city_distribution s) = total_patients s ∧
    table_total (bmi_verdict_distribution s) = total_patients s ∧
    total_patients s = Z.of_nat (size d).
Proof.
  intros Hc Hne.
  destruct (get_patient_statistics_run _ _ Hc Hne) as (r0 & rest & _ & Hrun).
  eexists. split; [exact Hrun|].
  cbn [gender_distribution city_distribution bmi_verdict_distribution total_patients].
  rewrite !table_total_distribution.
  change (values d) with (records d). rewrite length_records.
  repeat split; reflexivity.
Qed.

Lemma distributions_add_up_two_patients :
  ∃ s,
    get_patient_statistics two_patients = (inr (Statistics s), two_patients) ∧
    table_total (gender_distribution s) = 2.
Proof.
  destruct (distributions_add_up two_patients
              (<["P001" := alice_record]> {["P002" := bob_record]}))
    as (s & Hrun & Hg & _ & _ & Hn).
  - vm_compute. reflexivity.
  - apply insert_non_empty.
  - exists s. split; [exact Hrun|]. rewrite Hg, Hn. reflexivity.
Defined.

Section rounding_order.
Local Open Scope Q_scope.









End rounding_order.





(** ** The order of BMIs and verdicts *)

Section bmi_order.

Local Open Scope Q_scope.




End bmi_order.





(** ** The routes of [app] *)

Lemma strip_prefix_Some text path rest :
  App.strip_prefix text path = Some rest → path = text +:+ rest.
Proof.
  revert path. induction text as [|c text IH]; intros path H.
  - simpl in H. injection H as ->. reflexivity.
  - destruct path as [|c' path]; [discriminate H|].
    cbn [App.strip_prefix] in H. destruct (Ascii.eqb c c') eqn:E; [|discriminate H].
    apply Ascii.eqb_eq in E as ->.
    rewrite (IH _ H). reflexivity.
Qed.

Lemma strip_prefix_app text rest : App.strip_prefix text (text +:+ rest) = Some rest.
Proof.
  induction text as [|c text IH]; [reflexivity|].
  change (String c text +:+ rest) with (String c (text +:+ rest)).
  cbn [App.strip_prefix]. rewrite Ascii.eqb_refl. exact IH.
Qed.

Lemma at_end_cases rest :
  App.at_end rest = true →
  rest = EmptyString ∨ rest = String (ascii_of_nat 10) EmptyString.
Proof.
  unfold App.at_end. intros H. apply orb_true_iff in H as [H|H];
    apply bool_decide_eq_true in H; [left | right]; exact H.
Qed.

(** A path that is one literal text matches that text, with or without a
    last line feed. *)
Lemma matches_literal text path params :
  App.matches [App.Lit text] path = Some params →
  params = [] ∧ (path = text ∨ path = text +:+ String (ascii_of_nat 10) EmptyString).
Proof.
  cbn [App.matches]. destruct (App.strip_prefix text path) as [rest|] eqn:E; [|discriminate].
  apply strip_prefix_Some in E. destruct (App.at_end rest) eqn:Hend; [|discriminate].
  intros [= <-]. split; [reflexivity|].
  apply at_end_cases in Hend as [-> | ->]; [left | right]; [|exact E].
  rewrite E. clear. induction text as [|c text IH]; [reflexivity|].
  change (String c text +:+ "") with (String c (text +:+ "")). f_equal. exact IH.
Qed.

Lemma first_match_endpoint rs m path e params :
  App.first_match rs m path = Some (e, params) →
  ∃ r, r ∈ rs ∧ App.route_endpoint r = e ∧ App.route_method r = m
       ∧ App.matches (App.route_path r) path = Some params.
Proof.
  induction rs as [|r rs IH]; [discriminate|].
  cbn [App.first_match].
  destruct (App.matches (App.route_path r) path) as [ps|] eqn:E.
  - destruct (decide (App.route_method r = m)) as [Hm|Hm].
    + intros [= <- <-]. exists r. split; [apply list_elem_of_here|]. auto.
    + intros H. destruct (IH H) as (r' & Hin & Hr'). exists r'.
      split; [apply list_elem_of_further, Hin | exact Hr'].
  - intros H. destruct (IH H) as (r' & Hin & Hr'). exists r'.
    split; [apply list_elem_of_further, Hin | exact Hr'].
Qed.

(** The segment of a text without ["/"] that ends the path *)
Lemma segment_last value :
  (∀ c, c ∈ list_ascii_of_string value → c ≠ "/"%char) →
  App.segment value = (value, EmptyString).
Proof.
  induction value as [|c value IH]; intros H; [reflexivity|].
  simpl. destruct (Ascii.eqb c "/") eqn:E.
  - apply Ascii.eqb_eq in E. exfalso. apply (H c); [apply list_elem_of_here | exact E].
  - rewrite IH; [reflexivity|]. intros c' Hc'. apply H. simpl.
    apply list_elem_of_further, Hc'.
Qed.

(** X16. No request is served by [get_patient_statistics]: whatever the
    method and the path, the first matching route is another one.  The path
    /patients/stats matches the route /patients/{patient_id}, declared
    earlier, and GET /patients/stats calls [get_patient] with the identifier
    stats, which answers 404 in every state of the file reached from an
    empty collection. *)
Theorem statistics_route_is_shadowed :
  (∀ m path e params,
     App.dispatch m path = Some (e, params) → e ≠ App.GetPatientStatistics) ∧
  App.dispatch App.GET "/patients/stats"
    = Some (App.GetPatient, [("patient_id", "stats")]) ∧
  App.call App.GetPatient [("patient_id", "stats")] = Some (Get "stats") ∧
  (∀ file, reachable file → handle (Get "stats") file = (inl not_found, file)).
Proof.
  split; [|split; [reflexivity|split; [reflexivity|]]].
  - intros m path e params H ->.
    pose proof H as H'.
    apply first_match_endpoint in H' as (r & Hin & He & Hm & Hmatch).
    assert (Hr : App.route_path r = [App.Lit "/patients/stats"] ∧ m = App.GET).
    { unfold App.routes in Hin.
      repeat (apply elem_of_cons in Hin as [-> | Hin]; [try discriminate He|]).
      - split; [reflexivity | symmetry; exact Hm].
      - apply elem_of_nil in Hin. contradiction. }
    destruct Hr as [Hpath ->]. rewrite Hpath in Hmatch.
    apply matches_literal in Hmatch as [_ [-> | ->]]; vm_compute in H; discriminate H.
  - intros file Hreach.
    destruct (reachable_generated_keys file Hreach) as (d & Hc & Hkeys).
    cbn [handle]. rewrite (get_patient_run _ _ _ Hc).
    destruct (d !! "stats") as [r|] eqn:E; [|reflexivity].
    assert (Hk : is_generated_id "stats" = true) by (apply Hkeys; rewrite E; eexists; reflexivity).
    vm_compute in Hk. discriminate Hk.
Qed.

(** X17. For an identifier that is not empty and holds no ["/"], the
    requests GET, PUT and DELETE /patients/<identifier> go to [get_patient],
    [update_patient] and [delete_patient] with this identifier, whatever it
    is (stats and city included), and GET /patients/city/<name> goes to
    [get_patients_by_city] with this name. *)
Theorem patient_routes (value : string) :
  value ≠ EmptyString →
  (∀ c, c ∈ list_ascii_of_string value → c ≠ "/"%char) →
  App.dispatch App.GET ("/patients/" +:+ value)
    = Some (App.GetPatient, [("patient_id", value)]) ∧
  App.dispatch App.PUT ("/patients/" +:+ value)
    = Some (App.UpdatePatient, [("patient_id", value)]) ∧
  App.dispatch App.DELETE ("/patients/" +:+ value)
    = Some (App.DeletePatient, [("patient_id", value)]) ∧
  App.dispatch App.GET ("/patients/city/" +:+ value)
    = Some (App.GetPatientsByCity, [("city", value)]) ∧
  App.call App.GetPatient [("patient_id", value)] = Some (Get value) ∧
  App.call App.DeletePatient [("patient_id", value)] = Some (Delete value) ∧
  App.call App.GetPatientsByCity [("city", value)] = Some (ByCity value).
Proof.
  intros Hne Hslash.
  pose proof (segment_last value Hslash) as Hseg.
  destruct value as [|c value]; [contradiction|].
  assert (Hc : Ascii.eqb c "/" = false).
  { apply Ascii.eqb_neq. apply Hslash. apply list_elem_of_here. }
  assert (Hid : App.matches [App.Lit "/patients/"; App.Param "patient_id"]
                  ("/patients/" +:+ String c value)
                = Some [("patient_id", String c value)]).
  { cbn [App.matches]. rewrite strip_prefix_app, Hseg. reflexivity. }
  assert (Hcity : App.matches [App.Lit "/patients/city/"; App.Param "city"]
                  ("/patients/city/" +:+ String c value)
                = Some [("city", String c value)]).
  { cbn [App.matches]. rewrite strip_prefix_app, Hseg. reflexivity. }
  assert (Hshort : ∀ tail, App.matches [App.Lit "/patients"] ("/patients/" +:+ tail) = None).
  { intros tail. reflexivity. }
  assert (Hroot : ∀ tail, App.matches [App.Lit "/"] ("/patients/" +:+ tail) = None).
  { intros tail. reflexivity. }
  assert (Habout : ∀ tail, App.matches [App.Lit "/about"] ("/patients/" +:+ tail) = None).
  { intros tail. reflexivity. }
  assert (Hcity_id : App.matches [App.Lit "/patients/"; App.Param "patient_id"]
                  ("/patients/city/" +:+ String c value) = None).
  { change ("/patients/city/" +:+ String c value)
      with ("/patients/" +:+ ("city/" +:+ String c value)).
    cbn [App.matches]. rewrite strip_prefix_app. reflexivity. }
  unfold App.dispatch, App.routes.
  cbn [App.first_match App.route_path App.route_method App.route_endpoint].
  repeat split; try reflexivity.
  - rewrite ?Hroot, ?Habout, ?Hshort, ?Hid. reflexivity.
  - rewrite ?Hroot, ?Habout, ?Hshort, ?Hid. reflexivity.
  - rewrite ?Hroot, ?Habout, ?Hshort, ?Hid. reflexivity.
  - rewrite ?Hcity_id, ?Hcity.
    change ("/patients/city/" +:+ String c value)
      with ("/patients/" +:+ ("city/" +:+ String c value)).
    rewrite ?Hroot, ?Habout, ?Hshort. reflexivity.
Qed.

Lemma patient_routes_P001 :
  App.dispatch App.GET "/patients/P001" = Some (App.GetPatient, [("patient_id", "P001")]).
Proof.
  destruct (patient_routes "P001") as [H _].
  - discriminate.
  - intros c Hc. vm_compute in Hc.
    repeat (apply elem_of_cons in Hc as [-> | Hc]; [discriminate|]).
    apply elem_of_nil in Hc. contradiction.
  - exact H.
Defined.

(** ** The records a request leaves alone *)

(** X18. A request that succeeds changes at most the record whose
    identifier its response names: every other identifier has the record
    after the request that it had before, or none as before. *)
Theorem other_records_untouched rq file d resp file' :
  collection file = Some d →
  handle rq file = (inr resp, file') →
  ∃ d',
    collection file' = Some d' ∧
    ∀ k, written_id resp ≠ Some k → d' !! k = d !! k.
Proof.
  intros Hc Hrun.
  destruct (handle_success _ _ _ _ _ Hc Hrun)
    as [[Hro ->] | [(p & pid & r & -> & -> & Hnew & ->)
       | [(pid & u & old & r & -> & -> & Hold & ->)
       | (pid & old & -> & -> & Hold & ->)]]].
  - exists d. split; [exact Hc | reflexivity].
  - eexists. split; [reflexivity|]. intros k Hk.
    apply lookup_insert_ne. intros ->. apply Hk. reflexivity.
  - eexists. split; [reflexivity|]. intros k Hk.
    apply lookup_insert_ne. intros ->. apply Hk. reflexivity.
  - eexists. split; [reflexivity|]. intros k Hk.
    apply lookup_delete_ne. intros ->. apply Hk. reflexivity.
Qed.

Lemma other_records_untouched_bob :
  ∃ d', collection (handle (Delete "P001") two_patients).2 = Some d'
        ∧ d' !! "P002" = Some bob_record.
Proof.
  destruct (other_records_untouched (Delete "P001") two_patients
              (<["P001" := alice_record]> {["P002" := bob_record]})
              (PatientDeleted "P001" alice_record)
              (handle (Delete "P001") two_patients).2)
    as (d' & Hc' & Hframe).
  - reflexivity.
  - vm_compute. reflexivity.
  - exists d'. split; [exact Hc'|].
    rewrite Hframe; [|discriminate].
    rewrite lookup_insert_ne by discriminate. apply lookup_singleton_eq.
Defined.
